(** * odoo-mcp-simple: the XML-RPC client and the MCP tool dispatcher

    A shallow embedding of [odoo_client.py] (class [OdooClient]) and of
    [server.py] ([initialize_odoo], [list_tools], [call_tool]).

    Python code that talks to the network and mutates the global
    [odoo_client] is written in a state-and-exception monad in which the
    state survives a raised exception, as it does in Python.  Everything
    that lives outside the repository is a parameter of the development:
    the XML-RPC layer (marshalling, transport and the remote server), the
    check [xmlrpc.client.ServerProxy] makes on its URI, the contents of
    [config.json], and the Python built-ins that render values as text. *)

From Stdlib Require Import String Ascii List ZArith Bool Lia DecimalString.
From Stdlib Require DecimalZ.
Import ListNotations.
Local Open Scope string_scope.
#[local] Set Warnings "-register-all".

(** ** Python values

    The values that cross the two boundaries: JSON tool arguments on the
    way in, XML-RPC values on the way out and back.  A [dict] keeps its
    insertion order, so it is an association list; its keys are strings
    on both boundaries.  Floating-point numbers, dates and binary
    payloads are never inspected by the program and are left out. *)

Inductive PyVal : Type :=
| PNone
| PBool (b : bool)
| PInt (z : Z)
| PStr (s : string)
| PList (l : list PyVal)
| PDict (d : list (string * PyVal)).

Definition Dict := list (string * PyVal).

(** [bool(v)], the test behind [if v], [not v] and [v or w]. *)
Definition truthy (v : PyVal) : bool :=
  match v with
  | PNone => false
  | PBool b => b
  | PInt z => negb (z =? 0)%Z
  | PStr s => negb (s =? "")
  | PList l => match l with [] => false | _ :: _ => true end
  | PDict d => match d with [] => false | _ :: _ => true end
  end.

(** [v is False] *)
Definition is_False (v : PyVal) : bool :=
  match v with
  | PBool false => true
  | _ => false
  end.

(** [a or b] *)
Definition py_or (a b : PyVal) : PyVal := if truthy a then a else b.

(** ** Exceptions

    All of these are subclasses of Python's [Exception].  [Fault] and
    [ProtocolError] are the two error classes of [xmlrpc.client];
    [OSError] covers socket failures and the URI check of
    [ServerProxy]. *)

Inductive Exc : Type :=
| Exception (msg : string)
| KeyError (key : PyVal)
| IndexError
| TypeError
| AttributeError (obj : PyVal) (attr : string)
| OSError (msg : string)
| Fault (faultCode : Z) (faultString : string)
| ProtocolError (errcode : Z) (errmsg : string).

Definition Result (A : Type) : Type := (Exc + A)%type.

(** ** The monad: state that survives exceptions *)

Definition M (S A : Type) : Type := S -> S * Result A.

Definition ret {S A : Type} (a : A) : M S A := fun s => (s, inr a).

Definition raise {S A : Type} (e : Exc) : M S A := fun s => (s, inl e).

Definition bind {S A B : Type} (m : M S A) (k : A -> M S B) : M S B :=
  fun s =>
    match m s with
    | (s', inr a) => k a s'
    | (s', inl e) => (s', inl e)
    end.

(** [try: body  except Exception as e: handler e] *)
Definition try_except {S A : Type} (body : M S A) (handler : Exc -> M S A) : M S A :=
  fun s =>
    match body s with
    | (s', inl e) => handler e s'
    | (s', inr a) => (s', inr a)
    end.

Definition of_result {S A : Type} (r : Result A) : M S A := fun s => (s, r).

Declare Scope py_scope.
Delimit Scope py_scope with py.
Notation "x <- m ;; k" := (bind m (fun x => k))
  (at level 100, m at next level, right associativity) : py_scope.
Notation "m ;;; k" := (bind m (fun _ => k))
  (at level 100, right associativity) : py_scope.
Local Open Scope py_scope.

(** A [for] loop whose body may raise and which threads an accumulator. *)
Fixpoint for_each {S A X : Type} (xs : list X) (body : A -> X -> M S A) (acc : A) : M S A :=
  match xs with
  | [] => ret acc
  | x :: rest => acc' <- body acc x ;; for_each rest body acc'
  end.

(** ** Operations on dictionaries and dynamic values *)

Fixpoint dict_lookup (d : Dict) (k : string) : option PyVal :=
  match d with
  | [] => None
  | (k', v) :: rest => if k' =? k then Some v else dict_lookup rest k
  end.

(** [d[k] = v] *)
Fixpoint dict_set (d : Dict) (k : string) (v : PyVal) : Dict :=
  match d with
  | [] => [(k, v)]
  | (k', v') :: rest => if k' =? k then (k, v) :: rest else (k', v') :: dict_set rest k v
  end.

(** [d.get(k, default)] on a [dict] *)
Definition dict_get (d : Dict) (k : string) (default : PyVal) : PyVal :=
  match dict_lookup d k with
  | Some v => v
  | None => default
  end.

(** [d[k]] on a [dict]: [KeyError] when the key is missing. *)
Definition dict_getitem (d : Dict) (k : string) : Result PyVal :=
  match dict_lookup d k with
  | Some v => inr v
  | None => inl (KeyError (PStr k))
  end.

(** [v[k]] for a string key [k] on an arbitrary value: only a [dict] can
    be indexed by a string. *)
Definition py_getitem (v : PyVal) (k : string) : Result PyVal :=
  match v with
  | PDict d => dict_getitem d k
  | _ => inl TypeError
  end.

(** [v.get(k, default)] on an arbitrary value: only a [dict] has [get]. *)
Definition py_get (v : PyVal) (k : string) (default : PyVal) : Result PyVal :=
  match v with
  | PDict d => inr (dict_get d k default)
  | _ => inl (AttributeError v "get")
  end.

(** [v.items()] *)
Definition py_items (v : PyVal) : Result Dict :=
  match v with
  | PDict d => inr d
  | _ => inl (AttributeError v "items")
  end.

(** ** The XML-RPC boundary *)

(** One call through a [ServerProxy]: the endpoint it is bound to, the
    remote method name and the positional parameters. *)
Record Request : Type := {
  endpoint : string;
  methodname : string;
  params : list PyVal
}.

Record ServerProxy : Type := { uri : string }.

(** ** The client object *)

Record OdooClient : Type := {
  url : string;
  db : string;
  username : string;
  password : string;
  uid : PyVal;
  models : PyVal;
  common : ServerProxy;
  models_endpoint : ServerProxy
}.

(** [self.uid = v] *)
Definition set_uid (self : OdooClient) (v : PyVal) : OdooClient :=
  {| url := url self; db := db self; username := username self;
     password := password self; uid := v; models := models self;
     common := common self; models_endpoint := models_endpoint self |}.

(** What a tool call answers with. *)
Record TextContent : Type := { type : string; text : string }.

Record Tool : Type := {
  name : string;
  description : string;
  inputSchema : PyVal
}.

(** [config.json] *)
Record Config : Type := {
  odoo_url : string;
  odoo_database : string;
  odoo_username : string;
  odoo_password : string;
  mcp_name : string;
  mcp_version : string
}.

Inductive LogLevel : Type := INFO | ERROR.

Definition nl : string := String (ascii_of_nat 10) EmptyString.

(** ** What lies outside the repository

    [RS] is whatever state the remote server keeps; [transport s req] is
    one complete XML-RPC round trip from server state [s]: marshalling
    the request, the HTTP exchange, the server's work and unmarshalling
    the answer.  It raises (left) on a marshalling error, a transport
    error or a fault returned by the server.

    [supported_protocol] is the test [ServerProxy(uri)] makes on the
    scheme of its URI (http or https).

    Python's [str] is a sequence of code points, and the renderings of
    values are those of the interpreter and of the [json] module; the
    five text built-ins the program uses are taken as they are. *)

Class Environment : Type := {
  RS : Type;
  transport : RS -> Request -> RS * Result PyVal;
  supported_protocol : string -> bool;
  config : Config;
  py_str : PyVal -> string;           (* str(v), also f-string interpolation *)
  exc_str : Exc -> string;            (* str(e) *)
  json_dumps : PyVal -> string;       (* json.dumps(v, indent=2, ensure_ascii=False) *)
  str_len : string -> nat;            (* len(s) *)
  str_take : nat -> string -> string  (* s[:n] *)
}.

Section Bridge.

Context {E : Environment}.

(** *** State of the client layer *)

Record Net : Type := {
  server : RS;
  calls : list Request;     (* every XML-RPC call issued so far, oldest first *)
  stdout : list string      (* lines written by print *)
}.

(** Calling a method on a [ServerProxy]. *)
Definition rpc (p : ServerProxy) (meth : string) (args : list PyVal) : M Net PyVal :=
  fun n =>
    let req := {| endpoint := uri p; methodname := meth; params := args |} in
    let '(s', r) := transport (server n) req in
    ({| server := s'; calls := calls n ++ [req]; stdout := stdout n |}, r).

Definition print (line : string) : M Net unit :=
  fun n => ({| server := server n; calls := calls n; stdout := stdout n ++ [line] |}, inr tt).

(** *** odoo_client.py *)

Definition ServerProxy_new (u : string) : Result ServerProxy :=
  if supported_protocol u then inr {| uri := u |}
  else inl (OSError "unsupported XML-RPC protocol").

(** [OdooClient.__init__] *)
Definition OdooClient_init (url db username password : string) : Result OdooClient :=
  match ServerProxy_new (url ++ "/xmlrpc/2/common") with
  | inl e => inl e
  | inr c =>
    match ServerProxy_new (url ++ "/xmlrpc/2/object") with
    | inl e => inl e
    | inr o =>
      inr {| url := url; db := db; username := username; password := password;
             uid := PNone; models := PNone; common := c; models_endpoint := o |}
    end
  end.

(** [OdooClient.connect]: the object after the call and the returned
    boolean. *)
Definition connect (self : OdooClient) : M Net (OdooClient * bool) :=
  try_except
    (v <- rpc (common self) "authenticate"
              [PStr (db self); PStr (username self); PStr (password self); PDict []] ;;
     let self' := set_uid self v in
     ret (self', negb (is_False (uid self'))))
    (fun e =>
       print ("Error conectando: " ++ exc_str e) ;;;
       ret (self, false)).

(** [OdooClient.get_version] *)
Definition get_version (self : OdooClient) : M Net PyVal :=
  try_except
    (rpc (common self) "version" [])
    (fun e => ret (PDict [("error", PStr (exc_str e))])).

Definition not_connected : Exc := Exception "No conectado a Odoo".

(** The defaults of the keyword parameters: [domain = None],
    [fields = None], [limit = 100]. *)
Definition default_domain : PyVal := PNone.
Definition default_fields : PyVal := PNone.
Definition default_limit : PyVal := PInt 100.

(** [OdooClient.search] *)
Definition search (self : OdooClient) (model domain limit : PyVal) : M Net PyVal :=
  if negb (truthy (uid self)) then raise not_connected
  else
    let domain := py_or domain (PList []) in
    rpc (models_endpoint self) "execute_kw"
        [PStr (db self); uid self; PStr (password self);
         model; PStr "search";
         PList [domain];
         PDict [("limit", limit)]].

(** [OdooClient.read] *)
Definition read (self : OdooClient) (model ids fields : PyVal) : M Net PyVal :=
  if negb (truthy (uid self)) then raise not_connected
  else
    let params : Dict := [] in
    let params := if truthy fields then dict_set params "fields" fields else params in
    rpc (models_endpoint self) "execute_kw"
        [PStr (db self); uid self; PStr (password self);
         model; PStr "read";
         PList [ids];
         PDict params].

(** [OdooClient.search_read] *)
Definition search_read (self : OdooClient) (model domain fields limit : PyVal) : M Net PyVal :=
  if negb (truthy (uid self)) then raise not_connected
  else
    let domain := py_or domain (PList []) in
    let params : Dict := [("limit", limit)] in
    let params := if truthy fields then dict_set params "fields" fields else params in
    rpc (models_endpoint self) "execute_kw"
        [PStr (db self); uid self; PStr (password self);
         model; PStr "search_read";
         PList [domain];
         PDict params].

(** [OdooClient.create] *)
Definition create (self : OdooClient) (model values : PyVal) : M Net PyVal :=
  if negb (truthy (uid self)) then raise not_connected
  else
    rpc (models_endpoint self) "execute_kw"
        [PStr (db self); uid self; PStr (password self);
         model; PStr "create";
         PList [values]].

(** [OdooClient.update] *)
Definition update (self : OdooClient) (model ids values : PyVal) : M Net PyVal :=
  if negb (truthy (uid self)) then raise not_connected
  else
    rpc (models_endpoint self) "execute_kw"
        [PStr (db self); uid self; PStr (password self);
         model; PStr "write";
         PList [ids; values]].

(** [OdooClient.delete] *)
Definition delete (self : OdooClient) (model ids : PyVal) : M Net PyVal :=
  if negb (truthy (uid self)) then raise not_connected
  else
    rpc (models_endpoint self) "execute_kw"
        [PStr (db self); uid self; PStr (password self);
         model; PStr "unlink";
         PList [ids]].

(** [OdooClient.get_fields] *)
Definition get_fields (self : OdooClient) (model : PyVal) : M Net PyVal :=
  if negb (truthy (uid self)) then raise not_connected
  else
    rpc (models_endpoint self) "execute_kw"
        [PStr (db self); uid self; PStr (password self);
         model; PStr "fields_get";
         PList [];
         PDict [("attributes", PList [PStr "string"; PStr "help"; PStr "type"; PStr "required"])]].

(** [{'model': m['model'], 'name': m['name']}] *)
Definition model_entry (m : PyVal) : Result PyVal :=
  match py_getitem m "model" with
  | inl e => inl e
  | inr mo =>
    match py_getitem m "name" with
    | inl e => inl e
    | inr na => inr (PDict [("model", mo); ("name", na)])
    end
  end.

Fixpoint model_entries (ms : list PyVal) : Result (list PyVal) :=
  match ms with
  | [] => inr []
  | m :: rest =>
    match model_entry m with
    | inl e => inl e
    | inr x =>
      match model_entries rest with
      | inl e => inl e
      | inr xs => inr (x :: xs)
      end
    end
  end.

(** The comprehension [[{...} for m in models]].  A list yields its
    elements; a [dict] yields its keys, which are strings; a [str] yields
    its characters, and indexing the first of them by ['model'] already
    raises; anything else is not iterable. *)
Definition model_entries_of (models : PyVal) : Result (list PyVal) :=
  match models with
  | PList l => model_entries l
  | PDict d => model_entries (map (fun kv => PStr (fst kv)) d)
  | PStr s => if s =? "" then inr [] else inl TypeError
  | _ => inl TypeError
  end.

(** [OdooClient.list_models] *)
Definition list_models (self : OdooClient) : M Net (list PyVal) :=
  if negb (truthy (uid self)) then raise not_connected
  else
    models <- search_read self (PStr "ir.model") (PList [])
                (PList [PStr "model"; PStr "name"]) (PInt 500) ;;
    of_result (model_entries_of models).

(** *** server.py *)

(** The process: the global [odoo_client], the client layer's state and
    the records handed to [logger]. *)
Record World : Type := {
  odoo_client : option OdooClient;
  net : Net;
  logs : list (LogLevel * string)
}.

Definition get_world : M World World := fun w => (w, inr w).

(** [odoo_client = c], also used to make a mutation of the object the
    global refers to visible through the global. *)
Definition set_client (c : OdooClient) : M World unit :=
  fun w => ({| odoo_client := Some c; net := net w; logs := logs w |}, inr tt).

Definition log (level : LogLevel) (line : string) : M World unit :=
  fun w => ({| odoo_client := odoo_client w; net := net w;
               logs := logs w ++ [(level, line)] |}, inr tt).

(** Running a client-layer computation inside the process. *)
Definition with_net {A : Type} (m : M Net A) : M World A :=
  fun w =>
    let '(n', r) := m (net w) in
    ({| odoo_client := odoo_client w; net := n'; logs := logs w |}, r).

(** [initialize_odoo] *)
Definition initialize_odoo : M World bool :=
  c <- of_result (OdooClient_init (odoo_url config) (odoo_database config)
                                  (odoo_username config) (odoo_password config)) ;;
  set_client c ;;;
  r <- with_net (connect c) ;;
  let '(c', connected) := r in
  set_client c' ;;;
  if connected then
    version <- with_net (get_version c') ;;
    serie <- of_result (py_get version "server_serie" (PStr "Unknown")) ;;
    log INFO ("✅ Conectado a Odoo " ++ py_str serie) ;;;
    ret true
  else
    log ERROR "❌ No se pudo conectar a Odoo" ;;;
    ret false.

(** A JSON schema of type object. *)
Definition object_schema (properties : Dict) (required : list string) : PyVal :=
  PDict [("type", PStr "object");
         ("properties", PDict properties);
         ("required", PList (map PStr required))].

Definition prop (ty description : string) : PyVal :=
  PDict [("type", PStr ty); ("description", PStr description)].

Definition prop_default (ty description : string) (default : PyVal) : PyVal :=
  PDict [("type", PStr ty); ("description", PStr description); ("default", default)].

Definition tool_catalog : list Tool :=
  [ {| name := "connect_odoo";
       description := "Conectar con el servidor Odoo";
       inputSchema := object_schema [] [] |};
    {| name := "list_models";
       description := "Listar todos los modelos disponibles en Odoo";
       inputSchema := object_schema [] [] |};
    {| name := "search_records";
       description := "Buscar registros en un modelo de Odoo";
       inputSchema :=
         object_schema
           [("model", prop "string" "Nombre del modelo (ej: res.partner)");
            ("domain", prop_default "array" "Dominio de búsqueda Odoo" (PList []));
            ("fields", prop_default "array" "Campos a retornar" (PList []));
            ("limit", prop_default "integer" "Límite de registros" (PInt 10))]
           ["model"] |};
    {| name := "read_record";
       description := "Leer un registro específico por ID";
       inputSchema :=
         object_schema
           [("model", prop "string" "Nombre del modelo");
            ("record_id", prop "integer" "ID del registro");
            ("fields", prop_default "array" "Campos a retornar" (PList []))]
           ["model"; "record_id"] |};
    {| name := "create_record";
       description := "Crear un nuevo registro en Odoo";
       inputSchema :=
         object_schema
           [("model", prop "string" "Nombre del modelo");
            ("values", prop "object" "Valores del nuevo registro")]
           ["model"; "values"] |};
    {| name := "update_record";
       description := "Actualizar un registro existente";
       inputSchema :=
         object_schema
           [("model", prop "string" "Nombre del modelo");
            ("record_id", prop "integer" "ID del registro");
            ("values", prop "object" "Valores a actualizar")]
           ["model"; "record_id"; "values"] |};
    {| name := "delete_record";
       description := "Eliminar un registro de Odoo";
       inputSchema :=
         object_schema
           [("model", prop "string" "Nombre del modelo");
            ("record_id", prop "integer" "ID del registro a eliminar")]
           ["model"; "record_id"] |};
    {| name := "get_model_fields";
       description := "Obtener información sobre los campos de un modelo";
       inputSchema :=
         object_schema
           [("model", prop "string" "Nombre del modelo")]
           ["model"] |} ].

(** [list_tools] *)
Definition list_tools : M World (list Tool) := ret tool_catalog.

Definition text_content (t : string) : TextContent := {| type := "text"; text := t |}.

(** [not odoo_client or not odoo_client.uid] *)
Definition session_missing (w : World) : bool :=
  match odoo_client w with
  | None => true
  | Some c => negb (truthy (uid c))
  end.

(** [odoo_client.<method>]: looking a method up on the global. *)
Definition client_attr (method : string) : M World OdooClient :=
  fun w =>
    match odoo_client w with
    | Some c => (w, inr c)
    | None => (w, inl (AttributeError PNone method))
    end.

(** [len(v)] *)
Definition py_len (v : PyVal) : Result nat :=
  match v with
  | PList l => inr (length l)
  | PDict d => inr (length d)
  | PStr s => inr (str_len s)
  | _ => inl TypeError
  end.

(** [v[0]] *)
Definition py_first (v : PyVal) : Result PyVal :=
  match v with
  | PList (x :: _) => inr x
  | PList [] => inl IndexError
  | PStr s => if s =? "" then inl IndexError else inr (PStr (str_take 1 s))
  | PDict _ => inl (KeyError (PInt 0))
  | _ => inl TypeError
  end.

(** [v[:n]]: a [str] and a [list] can be sliced; a [dict] rejects the
    slice as a key and the other values cannot be subscripted. *)
Definition py_slice_to (n : nat) (v : PyVal) : Result PyVal :=
  match v with
  | PStr s => inr (PStr (str_take n s))
  | PList l => inr (PList (firstn n l))
  | _ => inl TypeError
  end.

Definition not_connected_text : string :=
  "❌ No hay conexión con Odoo. Usa 'connect_odoo' primero.".

Definition unknown_tool_text (name : string) : string :=
  "❌ Herramienta desconocida: " ++ name.

Definition error_text (e : Exc) : string := "❌ Error: " ++ exc_str e.

(** The branch of [call_tool] for [list_models]. *)
Definition tool_list_models : M World (list TextContent) :=
  c <- client_attr "list_models" ;;
  models <- with_net (list_models c) ;;
  let result := "📋 Modelos disponibles:" ++ nl in
  result <- for_each (firstn 20 models)
              (fun result m =>
                 mo <- of_result (py_getitem m "model") ;;
                 na <- of_result (py_getitem m "name") ;;
                 ret (result ++ "  • " ++ py_str mo ++ ": " ++ py_str na ++ nl))
              result ;;
  let result := result ++ nl ++ "(Mostrando 20 de "
                  ++ py_str (PInt (Z.of_nat (length models))) ++ " modelos)" in
  ret [text_content result].

(** The branch for [search_records]. *)
Definition tool_search_records (arguments : Dict) : M World (list TextContent) :=
  model <- of_result (dict_getitem arguments "model") ;;
  let domain := dict_get arguments "domain" (PList []) in
  let fields := dict_get arguments "fields" (PList []) in
  let limit := dict_get arguments "limit" (PInt 10) in
  c <- client_attr "search_read" ;;
  records <- with_net (search_read c model domain fields limit) ;;
  if negb (truthy records) then
    ret [text_content "No se encontraron registros"]
  else
    n <- of_result (py_len records) ;;
    let result := "🔍 Encontrados " ++ py_str (PInt (Z.of_nat n))
                    ++ " registros en " ++ py_str model ++ ":" ++ nl in
    let result := result ++ json_dumps records in
    ret [text_content result].

(** The branch for [read_record]. *)
Definition tool_read_record (arguments : Dict) : M World (list TextContent) :=
  model <- of_result (dict_getitem arguments "model") ;;
  record_id <- of_result (dict_getitem arguments "record_id") ;;
  let fields := dict_get arguments "fields" (PList []) in
  c <- client_attr "read" ;;
  records <- with_net (read c model (PList [record_id]) fields) ;;
  if negb (truthy records) then
    ret [text_content ("No se encontró el registro con ID " ++ py_str record_id)]
  else
    let result := "📖 Registro " ++ py_str model ++ "/" ++ py_str record_id ++ ":" ++ nl in
    first <- of_result (py_first records) ;;
    let result := result ++ json_dumps first in
    ret [text_content result].

(** The branch for [create_record]. *)
Definition tool_create_record (arguments : Dict) : M World (list TextContent) :=
  model <- of_result (dict_getitem arguments "model") ;;
  values <- of_result (dict_getitem arguments "values") ;;
  c <- client_attr "create" ;;
  new_id <- with_net (create c model values) ;;
  ret [text_content ("✅ Registro creado exitosamente!" ++ nl
                       ++ "📋 Modelo: " ++ py_str model ++ nl
                       ++ "🆔 ID: " ++ py_str new_id)].

(** The branch for [update_record]. *)
Definition tool_update_record (arguments : Dict) : M World (list TextContent) :=
  model <- of_result (dict_getitem arguments "model") ;;
  record_id <- of_result (dict_getitem arguments "record_id") ;;
  values <- of_result (dict_getitem arguments "values") ;;
  c <- client_attr "update" ;;
  success <- with_net (update c model (PList [record_id]) values) ;;
  if truthy success then
    ret [text_content ("✅ Registro " ++ py_str model ++ "/" ++ py_str record_id
                         ++ " actualizado exitosamente!")]
  else
    ret [text_content ("❌ Error al actualizar el registro "
                         ++ py_str model ++ "/" ++ py_str record_id)].

(** The branch for [delete_record]. *)
Definition tool_delete_record (arguments : Dict) : M World (list TextContent) :=
  model <- of_result (dict_getitem arguments "model") ;;
  record_id <- of_result (dict_getitem arguments "record_id") ;;
  c <- client_attr "delete" ;;
  success <- with_net (delete c model (PList [record_id])) ;;
  if truthy success then
    ret [text_content ("🗑️ Registro " ++ py_str model ++ "/" ++ py_str record_id
                         ++ " eliminado exitosamente")]
  else
    ret [text_content ("❌ Error al eliminar el registro "
                         ++ py_str model ++ "/" ++ py_str record_id)].

(** One turn of the loop over [list(fields.items())[:15]]. *)
Definition describe_field (result : string) (item : string * PyVal) : M World string :=
  let '(field_name, field_info) := item in
  field_type <- of_result (py_get field_info "type" (PStr "unknown")) ;;
  flag <- of_result (py_get field_info "required" (PBool false)) ;;
  let required := if truthy flag then "⚠️" else "" in
  let result := result ++ "  • " ++ field_name ++ " (" ++ py_str field_type ++ ") "
                  ++ required ++ nl in
  help <- of_result (py_get field_info "help" PNone) ;;
  if truthy help then
    help <- of_result (py_getitem field_info "help") ;;
    cut <- of_result (py_slice_to 50 help) ;;
    ret (result ++ "    → " ++ py_str cut ++ "..." ++ nl)
  else
    ret result.

(** The branch for [get_model_fields]. *)
Definition tool_get_model_fields (arguments : Dict) : M World (list TextContent) :=
  model <- of_result (dict_getitem arguments "model") ;;
  c <- client_attr "get_fields" ;;
  fields <- with_net (get_fields c model) ;;
  let result := "📊 Campos del modelo " ++ py_str model ++ ":" ++ nl in
  items <- of_result (py_items fields) ;;
  result <- for_each (firstn 15 items) describe_field result ;;
  ret [text_content result].

(** The [if]/[elif] chain of [call_tool] below the connection guard. *)
Definition dispatch (name : string) (arguments : Dict) : M World (list TextContent) :=
  if name =? "list_models" then tool_list_models
  else if name =? "search_records" then tool_search_records arguments
  else if name =? "read_record" then tool_read_record arguments
  else if name =? "create_record" then tool_create_record arguments
  else if name =? "update_record" then tool_update_record arguments
  else if name =? "delete_record" then tool_delete_record arguments
  else if name =? "get_model_fields" then tool_get_model_fields arguments
  else ret [text_content (unknown_tool_text name)].

(** The body of the [try] block of [call_tool]. *)
Definition call_tool_body (name : string) (arguments : Dict) : M World (list TextContent) :=
  if name =? "connect_odoo" then
    success <- initialize_odoo ;;
    if success then ret [text_content "✅ Conectado exitosamente a Odoo"]
    else ret [text_content "❌ Error al conectar con Odoo. Verifica las credenciales."]
  else
    w <- get_world ;;
    still_missing <-
      (if session_missing w then
         initialize_odoo ;;;
         w' <- get_world ;;
         ret (session_missing w')
       else ret false) ;;
    if still_missing then ret [text_content not_connected_text]
    else dispatch name arguments.

(** [call_tool] *)
Definition call_tool (name : string) (arguments : Dict) : M World (list TextContent) :=
  try_except
    (call_tool_body name arguments)
    (fun e =>
       log ERROR ("Error ejecutando " ++ name ++ ": " ++ exc_str e) ;;;
       ret [text_content (error_text e)]).

(** [main], up to the point where it hands the process over to the MCP
    library: [run_server] stands for [stdio_server] and [app.run]. *)
Definition main (run_server : M World unit) : M World unit :=
  log INFO ("🚀 Iniciando " ++ mcp_name config ++ " v" ++ mcp_version config) ;;;
  initialize_odoo ;;;
  run_server.

(** *** Vocabulary of the statements *)

(** The request [connect] sends. *)
Definition auth_request (self : OdooClient) : Request :=
  {| endpoint := uri (common self);
     methodname := "authenticate";
     params := [PStr (db self); PStr (username self); PStr (password self); PDict []] |}.

(** The request behind [execute_kw(db, uid, password, model, method, args, kwargs)];
    [kwargs] is the list of what follows the positional arguments, empty
    when the source passes none. *)
Definition kw_request (self : OdooClient) (model : PyVal) (meth : string)
           (args : list PyVal) (kwargs : list PyVal) : Request :=
  {| endpoint := uri (models_endpoint self);
     methodname := "execute_kw";
     params := [PStr (db self); uid self; PStr (password self);
                model; PStr meth; PList args] ++ kwargs |}.

(** Sending [req] from [n]: the state right after the round trip. *)
Definition sent (n : Net) (req : Request) : Net :=
  {| server := fst (transport (server n) req);
     calls := calls n ++ [req];
     stdout := stdout n |}.

(** The request [list_models] sends. *)
Definition list_models_request (self : OdooClient) : Request :=
  kw_request self (PStr "ir.model") "search_read" [PList []]
             [PDict [("limit", PInt 500); ("fields", PList [PStr "model"; PStr "name"])]].

(** A wrapper that checks the session first: without a session
    identifier it raises at once and the network state is untouched; with
    one, exactly one [execute_kw] round trip happens. *)
Definition guarded {A : Type} (m : OdooClient -> M Net A) : Prop :=
  forall (self : OdooClient) (n : Net),
    (truthy (uid self) = false -> m self n = (n, inl not_connected)) /\
    (truthy (uid self) = true ->
     exists req, methodname req = "execute_kw" /\ fst (m self n) = sent n req).

(** The [limit] keyword of an [execute_kw] request for [search] or
    [search_read]. *)
Definition request_limit (req : Request) : option Z :=
  if methodname req =? "execute_kw" then
    match params req with
    | [_; _; _; _; PStr meth; _; PDict kw] =>
      if (meth =? "search") || (meth =? "search_read") then
        match dict_lookup kw "limit" with
        | Some (PInt n) => Some n
        | _ => None
        end
      else None
    | _ => None
    end
  else None.

(** The remote server never answers a search with more entries than the
    positive limit it was given. *)
Definition honours_limit : Prop :=
  forall (s s' : RS) (req : Request) (v : PyVal) (n : Z),
    transport s req = (s', inr v) ->
    request_limit req = Some n ->
    (0 < n)%Z ->
    exists l, v = PList l /\ (Z.of_nat (length l) <= n)%Z.

(** The names [list_tools] advertises. *)
Definition tool_names : list string := map name tool_catalog.

(** Every entry of [small] is in [big] with the same value. *)
Definition dict_includes (big small : Dict) : Prop :=
  forall k v, dict_lookup small k = Some v -> dict_lookup big k = Some v.

(** The remote server keeps what it is given: whenever it answers a
    [create] with an identifier, a [read] of that identifier with no
    field list, sent with the same credentials to the same endpoint,
    answers with one record that holds the values created. *)
Definition keeps_records : Prop :=
  forall (s s1 : RS) (ep : string) (dbn usr pw model : PyVal) (vs : Dict) (id : PyVal),
    transport s {| endpoint := ep; methodname := "execute_kw";
                   params := [dbn; usr; pw; model; PStr "create"; PList [PDict vs]] |}
      = (s1, inr id) ->
    exists s2 rec,
      transport s1 {| endpoint := ep; methodname := "execute_kw";
                      params := [dbn; usr; pw; model; PStr "read";
                                 PList [PList [id]]; PDict []] |}
        = (s2, inr (PList [PDict rec])) /\
      dict_includes rec vs.


(** Computations of the process that leave the client layer alone. *)
Definition keeps_net {A : Type} (m : M World A) : Prop :=
  forall w, net (fst (m w)) = net w.

(** The shape of what the comprehension of [list_models] builds. *)
Definition is_model_entry (x : PyVal) : Prop :=
  exists mo na, x = PDict [("model", mo); ("name", na)].

(** [w1] is the process as the connection guard of [call_tool] hands it
    to the dispatch: a session identifier is in place, and [w1] is the
    process [w] the call was made on, or, when [w] had no session
    identifier, what a returning [initialize_odoo] made of it. *)
Definition past_guard (w w1 : World) : Prop :=
  session_missing w1 = false /\
  (w1 = w \/
   (session_missing w = true /\ exists b, initialize_odoo w = (w1, inr b))).

(** Every one of the eight wrappers, called on [self] with any arguments
    in any state of the client layer, raises "No conectado a Odoo" and
    leaves that state as it was. *)
Definition every_wrapper_raises (self : OdooClient) : Prop :=
  forall n : Net,
    (forall model domain limit,
        search self model domain limit n = (n, inl not_connected)) /\
    (forall model ids fields, read self model ids fields n = (n, inl not_connected)) /\
    (forall model domain fields limit,
        search_read self model domain fields limit n = (n, inl not_connected)) /\
    (forall model values, create self model values n = (n, inl not_connected)) /\
    (forall model ids values, update self model ids values n = (n, inl not_connected)) /\
    (forall model ids, delete self model ids n = (n, inl not_connected)) /\
    (forall model, get_fields self model n = (n, inl not_connected)) /\
    list_models self n = (n, inl not_connected).

(** The request [get_version] sends. *)
Definition version_request (self : OdooClient) : Request :=
  {| endpoint := uri (common self); methodname := "version"; params := [] |}.

(** Computations of the process that touch neither the global client nor
    the log. *)
Definition keeps_session_and_logs {A : Type} (m : M World A) : Prop :=
  forall w, odoo_client (fst (m w)) = odoo_client w /\ logs (fst (m w)) = logs w.

(** The keys a tool's advertised schema lists under [required]. *)
Fixpoint strings_of (l : list PyVal) : list string :=
  match l with
  | [] => []
  | PStr s :: rest => s :: strings_of rest
  | _ :: rest => strings_of rest
  end.

Definition schema_required (t : Tool) : list string :=
  match inputSchema t with
  | PDict d =>
    match dict_lookup d "required" with
    | Some (PList l) => strings_of l
    | _ => []
    end
  | _ => []
  end.

Fixpoint find_tool (nm : string) (ts : list Tool) : option Tool :=
  match ts with
  | [] => None
  | t :: rest => if name t =? nm then Some t else find_tool nm rest
  end.

Definition required_of (nm : string) : list string :=
  match find_tool nm tool_catalog with
  | Some t => schema_required t
  | None => []
  end.

(** The first of [keys] that [arguments] does not hold. *)
Fixpoint first_missing (keys : list string) (arguments : Dict) : option string :=
  match keys with
  | [] => None
  | k :: rest =>
    match dict_lookup arguments k with
    | None => Some k
    | Some _ => first_missing rest arguments
    end
  end.

(** Tool calls served one after the other. *)
Fixpoint call_tools (requests : list (string * Dict)) : M World (list (list TextContent)) :=
  match requests with
  | [] => ret []
  | (nm, arguments) :: rest =>
    answer <- call_tool nm arguments ;;
    answers <- call_tools rest ;;
    ret (answer :: answers)
  end.

(** A record the comprehension of [list_models] accepts. *)
Definition has_model_and_name (m : PyVal) : Prop :=
  exists mo na, py_getitem m "model" = inr mo /\ py_getitem m "name" = inr na.

(** The client [initialize_odoo] builds from the configuration. *)
Definition configured_client : Result OdooClient :=
  OdooClient_init (odoo_url config) (odoo_database config)
                  (odoo_username config) (odoo_password config).

(** [c] is that client, whatever its session identifier. *)
Definition from_config (c : OdooClient) : Prop :=
  exists c0, configured_client = inr c0 /\ exists v, c = set_uid c0 v.

Definition configured_world (w : World) : Prop :=
  forall c, odoo_client w = Some c -> from_config c.

(** The two endpoints of the configured server. *)
Definition configured_endpoint (req : Request) : Prop :=
  endpoint req = odoo_url config ++ "/xmlrpc/2/common" \/
  endpoint req = odoo_url config ++ "/xmlrpc/2/object".

(** One line of the answer of the [list_models] tool, and the lines for a
    list of (model, name) pairs appended to [acc]. *)
Definition model_line (entry : PyVal * PyVal) : string :=
  "  • " ++ py_str (fst entry) ++ ": " ++ py_str (snd entry) ++ nl.

Definition listing (acc : string) (entries : list (PyVal * PyVal)) : string :=
  fold_left (fun acc entry => acc ++ model_line entry) entries acc.

(** Computations whose outcome does not depend on the process and that
    leave it as it was. *)
Definition pure_in {A : Type} (m : M World A) : Prop :=
  exists r, forall w, m w = (w, r).

(** The process with one more log record. *)
Definition logged (w : World) (level : LogLevel) (line : string) : World :=
  {| odoo_client := odoo_client w; net := net w; logs := logs w ++ [(level, line)] |}.

(** The process with its client layer replaced. *)
Definition with_network (w : World) (n : Net) : World :=
  {| odoo_client := odoo_client w; net := n; logs := logs w |}.

End Bridge.

(** * A sample environment

    A small in-memory record server speaking the subset of the remote
    protocol the client uses, a few servers that misbehave, and plain
    renderings of values.  The properties below are proved for every
    environment; these are the concrete ones they are run on. *)

Record Store : Type := {
  rows : list (string * Z * Dict);   (* model, identifier, values; newest first *)
  next_id : Z
}.

Definition empty_store : Store := {| rows := []; next_id := 1 |}.

(** A store that already holds two partners. *)
Definition two_partners : Store :=
  {| rows := [("res.partner", 2%Z, [("name", PStr "Bob")]);
              ("res.partner", 1%Z, [("name", PStr "Ada")])];
     next_id := 3 |}.


(** A store that holds six hundred models. *)
Definition many_models : Store :=
  {| rows := map (fun i => ("ir.model", Z.of_nat i,
                            [("model", PStr ("x_model_" ++ NilZero.string_of_uint (Nat.to_uint i)));
                             ("name", PStr ("Model " ++ NilZero.string_of_uint (Nat.to_uint i)))]))
                 (seq 1 600);
     next_id := 601 |}.

Fixpoint find_row (model : string) (id : Z) (rs : list (string * Z * Dict)) : option Dict :=
  match rs with
  | [] => None
  | (m, i, vs) :: rest =>
    if (m =? model) && (i =? id)%Z then Some vs else find_row model id rest
  end.

Definition row_record (id : Z) (vs : Dict) : PyVal := PDict (vs ++ [("id", PInt id)]).

Fixpoint read_rows (model : string) (ids : list PyVal) (rs : list (string * Z * Dict)) : list PyVal :=
  match ids with
  | [] => []
  | PInt i :: rest =>
    match find_row model i rs with
    | Some vs => row_record i vs :: read_rows model rest rs
    | None => read_rows model rest rs
    end
  | _ :: rest => read_rows model rest rs
  end.

Fixpoint rows_of (model : string) (rs : list (string * Z * Dict)) : list (Z * Dict) :=
  match rs with
  | [] => []
  | (m, i, vs) :: rest =>
    if m =? model then (i, vs) :: rows_of model rest else rows_of model rest
  end.

Definition limit_of (kwargs : list PyVal) : option Z :=
  match kwargs with
  | [PDict kw] =>
    match dict_lookup kw "limit" with
    | Some (PInt n) => Some n
    | _ => None
    end
  | _ => None
  end.

Definition sample_execute (s : Store) (model meth : string) (args kwargs : list PyVal)
  : Store * Result PyVal :=
  if meth =? "create" then
    match args with
    | [PDict vs] =>
      ({| rows := (model, next_id s, vs) :: rows s; next_id := (next_id s + 1)%Z |},
       inr (PInt (next_id s)))
    | _ => (s, inl (Fault 1 "create: bad arguments"))
    end
  else if meth =? "read" then
    match args with
    | [PList ids] => (s, inr (PList (read_rows model ids (rows s))))
    | _ => (s, inl (Fault 1 "read: bad arguments"))
    end
  else if meth =? "search" then
    match limit_of kwargs with
    | Some n =>
      (s, inr (PList (firstn (Z.to_nat n) (map (fun r => PInt (fst r)) (rows_of model (rows s))))))
    | None => (s, inl (Fault 1 "search: bad limit"))
    end
  else if meth =? "search_read" then
    match limit_of kwargs with
    | Some n =>
      (s, inr (PList (firstn (Z.to_nat n)
                        (map (fun r => row_record (fst r) (snd r)) (rows_of model (rows s))))))
    | None => (s, inl (Fault 1 "search_read: bad limit"))
    end
  else (s, inl (Fault 1 "unsupported method")).

Definition sample_transport (s : Store) (req : Request) : Store * Result PyVal :=
  if methodname req =? "authenticate" then
    match params req with
    | [PStr _; PStr _; PStr pw; PDict _] =>
      (s, inr (if pw =? "admin" then PInt 2 else PBool false))
    | _ => (s, inl (Fault 1 "authenticate: bad arguments"))
    end
  else if methodname req =? "version" then
    (s, inr (PDict [("server_serie", PStr "18.0")]))
  else if methodname req =? "execute_kw" then
    match params req with
    | PStr _ :: PInt 2 :: PStr _ :: PStr model :: PStr meth :: PList args :: kwargs =>
      sample_execute s model meth args kwargs
    | _ => (s, inl (Fault 3 "Access Denied"))
    end
  else (s, inl (Fault 1 "unknown method")).

(** A server nobody listens on. *)
Definition offline_transport (s : Store) (req : Request) : Store * Result PyVal :=
  (s, inl (OSError "[Errno 111] Connection refused")).


Definition http_scheme (u : string) : bool := prefix "http://" u || prefix "https://" u.

Definition sample_str (v : PyVal) : string :=
  match v with
  | PNone => "None"
  | PBool true => "True"
  | PBool false => "False"
  | PInt z => NilZero.string_of_int (Z.to_int z)
  | PStr s => s
  | PList _ => "[...]"
  | PDict _ => "{...}"
  end.

Definition sample_exc_str (e : Exc) : string :=
  match e with
  | Exception msg => msg
  | KeyError k => "'" ++ sample_str k ++ "'"
  | IndexError => "index out of range"
  | TypeError => "unsupported operand type"
  | AttributeError _ attr => "object has no attribute '" ++ attr ++ "'"
  | OSError msg => msg
  | Fault c m => "<Fault " ++ sample_str (PInt c) ++ ": '" ++ m ++ "'>"
  | ProtocolError c m => "<ProtocolError " ++ sample_str (PInt c) ++ " " ++ m ++ ">"
  end.

Definition sample_env (tr : Store -> Request -> Store * Result PyVal) (cfg : Config)
  : Environment :=
  {| RS := Store;
     transport := tr;
     supported_protocol := http_scheme;
     config := cfg;
     py_str := sample_str;
     exc_str := sample_exc_str;
     json_dumps := sample_str;
     str_len := String.length;
     str_take := fun n s => substring 0 n s |}.

Definition demo_config : Config :=
  {| odoo_url := "http://localhost:8069";
     odoo_database := "demo";
     odoo_username := "admin";
     odoo_password := "admin";
     mcp_name := "odoo-mcp-simple";
     mcp_version := "1.0.0" |}.

(** The same file with the scheme forgotten in the URL. *)
Definition schemeless_config : Config :=
  {| odoo_url := "localhost:8069";
     odoo_database := "demo";
     odoo_username := "admin";
     odoo_password := "admin";
     mcp_name := "odoo-mcp-simple";
     mcp_version := "1.0.0" |}.

Definition demo : Environment := sample_env sample_transport demo_config.
Definition offline : Environment := sample_env offline_transport demo_config.
Definition schemeless : Environment := sample_env sample_transport schemeless_config.

Definition fresh_net (E : Environment) (s : @RS E) : @Net E :=
  {| server := s; calls := []; stdout := [] |}.

(** The process right after start, before anything connected. *)
Definition fresh_world (E : Environment) (s : @RS E) : @World E :=
  {| odoo_client := None; net := fresh_net E s; logs := [] |}.

(** A client of the demo server, before and after authentication. *)
Definition demo_client : OdooClient :=
  {| url := "http://localhost:8069"; db := "demo"; username := "admin";
     password := "admin"; uid := PNone; models := PNone;
     common := {| uri := "http://localhost:8069/xmlrpc/2/common" |};
     models_endpoint := {| uri := "http://localhost:8069/xmlrpc/2/object" |} |}.

Definition demo_session : OdooClient := set_uid demo_client (PInt 2).

Definition live_world (E : Environment) (s : @RS E) : @World E :=
  {| odoo_client := Some demo_session; net := fresh_net E s; logs := [] |}.

(** A server that authenticates but raises on [version]. *)
Definition no_version_transport (s : Store) (req : Request) : Store * Result PyVal :=
  if methodname req =? "version" then (s, inl (ProtocolError 404 "Not Found"))
  else sample_transport s req.

(** A server that answers [authenticate] with 0 and is otherwise sound. *)
Definition zero_uid_transport (s : Store) (req : Request) : Store * Result PyVal :=
  if methodname req =? "authenticate" then (s, inr (PInt 0))
  else sample_transport s req.

(** A server that answers every [execute_kw] with the same two models. *)
Definition models_transport (s : Store) (req : Request) : Store * Result PyVal :=
  if methodname req =? "execute_kw" then
    (s, inr (PList [PDict [("id", PInt 1); ("model", PStr "res.partner"); ("name", PStr "Contact")];
                    PDict [("id", PInt 2); ("model", PStr "res.users"); ("name", PStr "User")]]))
  else sample_transport s req.

(** [xmlrpc.client] refuses to marshal [None] (the proxies are built
    without [allow_none]): the call raises [TypeError] before anything
    leaves the process. *)
Fixpoint marshals (v : PyVal) : bool :=
  match v with
  | PNone => false
  | PList l => forallb marshals l
  | PDict d => forallb (fun kv => marshals (snd kv)) d
  | _ => true
  end.

Definition marshalling_transport (s : Store) (req : Request) : Store * Result PyVal :=
  if forallb marshals (params req) then sample_transport s req
  else (s, inl TypeError).

(** A sound server, but for a [version] answered with a bare string. *)
Definition bare_version_transport (s : Store) (req : Request) : Store * Result PyVal :=
  if methodname req =? "version" then (s, inr (PStr "18.0"))
  else sample_transport s req.

(** A server that answers every [execute_kw] with [False]. *)
Definition refusing_transport (s : Store) (req : Request) : Store * Result PyVal :=
  if methodname req =? "execute_kw" then (s, inr (PBool false))
  else sample_transport s req.

(** Fifteen well-formed field descriptions, and one entry that is none. *)
Definition fifteen_fields : Dict :=
  map (fun i => ("field_" ++ sample_str (PInt (Z.of_nat i)),
                 PDict [("type", PStr "char"); ("help", PStr "A field")]))
      (seq 1 15).

Definition broken_entry : Dict := [("broken", PInt 3)].

Definition fields_transport (s : Store) (req : Request) : Store * Result PyVal :=
  if methodname req =? "execute_kw" then (s, inr (PDict (fifteen_fields ++ broken_entry)))
  else sample_transport s req.

Definition marshalling : Environment := sample_env marshalling_transport demo_config.
Definition bare_version : Environment := sample_env bare_version_transport demo_config.
Definition refusing : Environment := sample_env refusing_transport demo_config.
Definition sixteen_fields : Environment := sample_env fields_transport demo_config.
Definition no_version : Environment := sample_env no_version_transport demo_config.
Definition zero_uid : Environment := sample_env zero_uid_transport demo_config.
Definition two_models : Environment := sample_env models_transport demo_config.

(** A client whose password the demo server no longer accepts, still
    holding the session identifier it was given earlier. *)
Definition stale_session : OdooClient :=
  {| url := "http://localhost:8069"; db := "demo"; username := "admin";
     password := "changed"; uid := PInt 2; models := PNone;
     common := {| uri := "http://localhost:8069/xmlrpc/2/common" |};
     models_endpoint := {| uri := "http://localhost:8069/xmlrpc/2/object" |} |}.

(** * Properties *)

Section Properties.

Context {E : Environment}.

(** ** The monad *)

Lemma bind_inr {S A B : Type} (m : M S A) (k : A -> M S B) (s s1 : S) (a : A) :
  m s = (s1, inr a) -> bind m k s = k a s1.
Proof. intros H. unfold bind. rewrite H. reflexivity. Qed.

Lemma bind_inl {S A B : Type} (m : M S A) (k : A -> M S B) (s s1 : S) (e : Exc) :
  m s = (s1, inl e) -> bind m k s = (s1, inl e).
Proof. intros H. unfold bind. rewrite H. reflexivity. Qed.

Lemma bind_returns {S A B : Type} (m : M S A) (k : A -> M S B) (s s' : S) (b : B) :
  bind m k s = (s', inr b) ->
  exists s1 a, m s = (s1, inr a) /\ k a s1 = (s', inr b).
Proof.
  unfold bind. destruct (m s) as [s1 [e | a]]; intros H.
  - discriminate.
  - exists s1, a. split; [reflexivity | exact H].
Qed.

Lemma of_result_returns {S A : Type} (r : Result A) (s s' : S) (a : A) :
  of_result r s = (s', inr a) -> s' = s /\ r = inr a.
Proof. unfold of_result. intros H. inversion H. split; reflexivity. Qed.

(** ** The client *)

Lemma rpc_run (p : ServerProxy) (meth : string) (args : list PyVal) (n : Net) :
  let req := {| endpoint := uri p; methodname := meth; params := args |} in
  rpc p meth args n = (sent n req, snd (transport (server n) req)).
Proof.
  unfold rpc, sent. simpl.
  destruct (transport (server n) _) as [s' r]. reflexivity.
Qed.

Lemma connect_run (self : OdooClient) (n : Net) :
  connect self n =
  match snd (transport (server n) (auth_request self)) with
  | inr v => (sent n (auth_request self), inr (set_uid self v, negb (is_False v)))
  | inl e =>
    ({| server := server (sent n (auth_request self));
        calls := calls (sent n (auth_request self));
        stdout := stdout n ++ ["Error conectando: " ++ exc_str e] |},
     inr (self, false))
  end.
Proof.
  unfold connect, try_except, bind. rewrite rpc_run.
  fold (auth_request self).
  destruct (snd (transport (server n) (auth_request self))) as [e | v]; reflexivity.
Qed.

Lemma get_version_run (self : OdooClient) (n : Net) :
  let req := {| endpoint := uri (common self); methodname := "version"; params := [] |} in
  get_version self n =
  (sent n req,
   inr match snd (transport (server n) req) with
       | inr v => v
       | inl e => PDict [("error", PStr (exc_str e))]
       end).
Proof.
  unfold get_version, try_except. rewrite rpc_run. simpl.
  destruct (snd (transport (server n) _)); reflexivity.
Qed.

(** What each wrapper does once the session check has passed. *)
Lemma search_live self model domain limit n :
  truthy (uid self) = true ->
  search self model domain limit n =
  (let req := kw_request self model "search" [py_or domain (PList [])]
                         [PDict [("limit", limit)]] in
   (sent n req, snd (transport (server n) req))).
Proof. intros H. unfold search. rewrite H. simpl. apply rpc_run. Qed.

Lemma read_live self model ids fields n :
  truthy (uid self) = true ->
  read self model ids fields n =
  (let req := kw_request self model "read" [ids]
                         [PDict (if truthy fields then [("fields", fields)] else [])] in
   (sent n req, snd (transport (server n) req))).
Proof.
  intros H. unfold read. rewrite H. simpl. rewrite rpc_run.
  destruct (truthy fields); reflexivity.
Qed.

Lemma search_read_live self model domain fields limit n :
  truthy (uid self) = true ->
  search_read self model domain fields limit n =
  (let req := kw_request self model "search_read" [py_or domain (PList [])]
                [PDict (if truthy fields then [("limit", limit); ("fields", fields)]
                        else [("limit", limit)])] in
   (sent n req, snd (transport (server n) req))).
Proof.
  intros H. unfold search_read. rewrite H. simpl. rewrite rpc_run.
  destruct (truthy fields); reflexivity.
Qed.

Lemma create_live self model values n :
  truthy (uid self) = true ->
  create self model values n =
  (let req := kw_request self model "create" [values] [] in
   (sent n req, snd (transport (server n) req))).
Proof. intros H. unfold create. rewrite H. simpl. apply rpc_run. Qed.

Lemma update_live self model ids values n :
  truthy (uid self) = true ->
  update self model ids values n =
  (let req := kw_request self model "write" [ids; values] [] in
   (sent n req, snd (transport (server n) req))).
Proof. intros H. unfold update. rewrite H. simpl. apply rpc_run. Qed.

Lemma delete_live self model ids n :
  truthy (uid self) = true ->
  delete self model ids n =
  (let req := kw_request self model "unlink" [ids] [] in
   (sent n req, snd (transport (server n) req))).
Proof. intros H. unfold delete. rewrite H. simpl. apply rpc_run. Qed.

Lemma get_fields_live self model n :
  truthy (uid self) = true ->
  get_fields self model n =
  (let req := kw_request self model "fields_get" []
                [PDict [("attributes",
                         PList [PStr "string"; PStr "help"; PStr "type"; PStr "required"])]] in
   (sent n req, snd (transport (server n) req))).
Proof. intros H. unfold get_fields. rewrite H. simpl. apply rpc_run. Qed.

Lemma list_models_live self n :
  truthy (uid self) = true ->
  list_models self n =
  (sent n (list_models_request self),
   match snd (transport (server n) (list_models_request self)) with
   | inr models => model_entries_of models
   | inl e => inl e
   end).
Proof.
  intros H. unfold list_models. rewrite H. simpl.
  unfold bind. rewrite (search_read_live _ _ _ _ _ _ H).
  unfold py_or. simpl. fold (list_models_request self).
  destruct (snd (transport (server n) (list_models_request self))); reflexivity.
Qed.

Lemma is_False_false (v : PyVal) : is_False v = false <-> v <> PBool false.
Proof.
  split.
  - intros H Hv. subst v. discriminate H.
  - intros H. destruct v as [ | [ | ] | | | | ]; try reflexivity.
    exfalso. apply H. reflexivity.
Qed.

(** C3.  Every CRUD wrapper of the client ([search], [read],
    [search_read], [create], [update], [delete], [get_fields],
    [list_models]) checks the session identifier first.  When it is
    absent ([None] and [False] are both falsy) the wrapper raises
    "No conectado a Odoo" at once and nothing is sent; when it is live the
    wrapper performs exactly one remote call, an [execute_kw]. *)
Theorem crud_wrappers_require_session :
  truthy PNone = false /\
  truthy (PBool false) = false /\
  (forall model domain limit, guarded (fun self => search self model domain limit)) /\
  (forall model ids fields, guarded (fun self => read self model ids fields)) /\
  (forall model domain fields limit,
      guarded (fun self => search_read self model domain fields limit)) /\
  (forall model values, guarded (fun self => create self model values)) /\
  (forall model ids values, guarded (fun self => update self model ids values)) /\
  (forall model ids, guarded (fun self => delete self model ids)) /\
  (forall model, guarded (fun self => get_fields self model)) /\
  guarded list_models.
Proof.
  split; [reflexivity | ]. split; [reflexivity | ].
  repeat apply conj; unfold guarded; intros.
  - split; intros H.
    + unfold search. rewrite H. reflexivity.
    + rewrite search_live by exact H. eexists. split; [ | reflexivity ]. reflexivity.
  - split; intros H.
    + unfold read. rewrite H. reflexivity.
    + rewrite read_live by exact H. eexists. split; [ | reflexivity ]. reflexivity.
  - split; intros H.
    + unfold search_read. rewrite H. reflexivity.
    + rewrite search_read_live by exact H. eexists. split; [ | reflexivity ]. reflexivity.
  - split; intros H.
    + unfold create. rewrite H. reflexivity.
    + rewrite create_live by exact H. eexists. split; [ | reflexivity ]. reflexivity.
  - split; intros H.
    + unfold update. rewrite H. reflexivity.
    + rewrite update_live by exact H. eexists. split; [ | reflexivity ]. reflexivity.
  - split; intros H.
    + unfold delete. rewrite H. reflexivity.
    + rewrite delete_live by exact H. eexists. split; [ | reflexivity ]. reflexivity.
  - split; intros H.
    + unfold get_fields. rewrite H. reflexivity.
    + rewrite get_fields_live by exact H. eexists. split; [ | reflexivity ]. reflexivity.
  - split; intros H.
    + unfold list_models. rewrite H. reflexivity.
    + rewrite list_models_live by exact H. eexists. split; [ | reflexivity ]. reflexivity.
Qed.

(** C4.  [connect] never raises and sends exactly one [authenticate]
    request, whatever the answer (no retry).  It returns [True] exactly
    when that request is answered with a value other than [False]; any
    answer is stored as the session identifier.  An answer [False] (the
    remote rejects the credentials) and an exception raised by the call
    both make it return [False]. *)
Theorem connect_true_iff_authenticated :
  forall (self : OdooClient) (n : Net),
  exists (n' : Net) (self' : OdooClient) (b : bool),
    connect self n = (n', inr (self', b)) /\
    calls n' = (calls n ++ [auth_request self])%list /\
    (b = true <->
     exists s' v, transport (server n) (auth_request self) = (s', inr v) /\
                  v <> PBool false) /\
    (forall s' v, transport (server n) (auth_request self) = (s', inr v) ->
                  uid self' = v) /\
    (forall s', transport (server n) (auth_request self) = (s', inr (PBool false)) ->
                b = false) /\
    (forall s' e, transport (server n) (auth_request self) = (s', inl e) -> b = false).
Proof.
  intros self n. rewrite connect_run.
  destruct (transport (server n) (auth_request self)) as [s1 [e | v]] eqn:Ht; simpl.
  - eexists _, self, false. split; [reflexivity | ]. split; [reflexivity | ].
    split; [ | split; [ | split ] ].
    + split; [discriminate | ].
      intros (s' & v & Hv & _). discriminate Hv.
    + intros s' v Hv. discriminate Hv.
    + intros; reflexivity.
    + intros; reflexivity.
  - eexists _, (set_uid self v), (negb (is_False v)).
    split; [reflexivity | ]. split; [reflexivity | ].
    split; [ | split; [ | split ] ].
    + split.
      * intros Hb. exists s1, v. split; [reflexivity | ].
        apply is_False_false. destruct (is_False v); [discriminate Hb | reflexivity].
      * intros (s' & v' & Hv & Hne). inversion Hv; subst v'.
        apply is_False_false in Hne. rewrite Hne. reflexivity.
    + intros s' v' Hv. inversion Hv. reflexivity.
    + intros s' Hv. inversion Hv. reflexivity.
    + intros s' e Hv. discriminate Hv.
Qed.

(** C10.  When the [authenticate] call raises inside [connect], the
    assignment to [self.uid] never happens: [connect] returns [False] and
    the object is what it was, field by field, so a session identifier
    that passed the live-session check before still passes it. *)
Theorem failed_connect_keeps_session :
  forall (self : OdooClient) (n : Net) (s' : RS) (e : Exc),
    transport (server n) (auth_request self) = (s', inl e) ->
    exists (n' : Net) (self' : OdooClient),
      connect self n = (n', inr (self', false)) /\
      url self' = url self /\ db self' = db self /\
      username self' = username self /\ password self' = password self /\
      uid self' = uid self /\
      (truthy (uid self) = true -> truthy (uid self') = true).
Proof.
  intros self n s' e Ht. rewrite connect_run, Ht. simpl.
  eexists _, self. repeat split. intros H. exact H.
Qed.

(** C7, as the code has it.  Without a session identifier [create]
    raises and sends nothing.  With one, [create] is a single request
    that carries the value map as it was given and returns what the
    remote layer answers, or raises what it raises.  So for every model
    and value map whose creation is answered with an identifier,
    [create] returns that identifier, and on a remote server that keeps
    what it is given a [read] of that identifier right after returns one
    record that contains every submitted value. *)
Theorem create_then_read_returns_values :
  forall (self : OdooClient) (model : PyVal) (vs : Dict) (n : Net),
    let request := kw_request self model "create" [PDict vs] [] in
    (truthy (uid self) = false ->
     create self model (PDict vs) n = (n, inl not_connected)) /\
    (truthy (uid self) = true ->
     create self model (PDict vs) n = (sent n request, snd (transport (server n) request)) /\
     (forall (s1 : RS) (id : PyVal),
         transport (server n) request = (s1, inr id) ->
         keeps_records ->
         exists (n2 : Net) (rec : Dict),
           create self model (PDict vs) n = (sent n request, inr id) /\
           read self model (PList [id]) default_fields (sent n request)
           = (n2, inr (PList [PDict rec])) /\
           dict_includes rec vs)).
Proof.
  intros self model vs n request. subst request. split.
  - intros Hu. unfold create. rewrite Hu. reflexivity.
  - intros Hlive. split; [apply create_live; exact Hlive | ].
    intros s1 id Hcreate Hkeep.
    destruct (Hkeep (server n) s1 (uri (models_endpoint self))
                    (PStr (db self)) (uid self) (PStr (password self)) model vs id Hcreate)
      as (s2 & rec & Hread & Hinc).
    eexists. exists rec.
    split; [ | split; [ | exact Hinc ] ].
    + rewrite create_live by exact Hlive. simpl. rewrite Hcreate. reflexivity.
    + rewrite read_live by exact Hlive. simpl.
      unfold sent at 2. simpl. rewrite Hcreate. simpl.
      unfold kw_request. simpl. rewrite Hread. reflexivity.
Qed.

(** ** The dispatcher *)

Lemma keeps_net_ret {A : Type} (a : A) : keeps_net (ret a).
Proof. intros w. reflexivity. Qed.

Lemma keeps_net_raise {A : Type} (e : Exc) : keeps_net (@raise World A e).
Proof. intros w. reflexivity. Qed.

Lemma keeps_net_of_result {A : Type} (r : Result A) : keeps_net (of_result r).
Proof. intros w. reflexivity. Qed.

Lemma keeps_net_log (level : LogLevel) (line : string) : keeps_net (log level line).
Proof. intros w. reflexivity. Qed.

Lemma keeps_net_client_attr (method : string) : keeps_net (client_attr method).
Proof. intros w. unfold client_attr. destruct (odoo_client w); reflexivity. Qed.

Lemma keeps_net_bind {A C : Type} (m : M World A) (k : A -> M World C) :
  keeps_net m -> (forall a, keeps_net (k a)) -> keeps_net (bind m k).
Proof.
  intros Hm Hk w. unfold bind. specialize (Hm w).
  destruct (m w) as [w1 [e | a]]; simpl in *.
  - exact Hm.
  - rewrite Hk. exact Hm.
Qed.

Lemma keeps_net_if {A : Type} (c : bool) (m1 m2 : M World A) :
  keeps_net m1 -> keeps_net m2 -> keeps_net (if c then m1 else m2).
Proof. destruct c; auto. Qed.

Lemma keeps_net_for_each {A X : Type} (xs : list X) (body : A -> X -> M World A) :
  (forall acc x, keeps_net (body acc x)) ->
  forall acc, keeps_net (for_each xs body acc).
Proof.
  intros Hbody. induction xs as [ | x rest IH]; intros acc; simpl.
  - apply keeps_net_ret.
  - apply keeps_net_bind; [apply Hbody | exact IH].
Qed.

Create HintDb keeps_net.
#[local] Hint Resolve keeps_net_ret keeps_net_raise keeps_net_of_result keeps_net_log
  keeps_net_client_attr keeps_net_bind keeps_net_if keeps_net_for_each : keeps_net.

Lemma keeps_net_describe_field (result : string) (item : string * PyVal) :
  keeps_net (describe_field result item).
Proof.
  destruct item as [field_name field_info]. unfold describe_field.
  repeat (apply keeps_net_bind; [auto with keeps_net | intros ]).
  auto 10 with keeps_net.
Qed.

(** A client-layer computation followed by work that leaves the client
    layer alone: the client layer ends where the computation left it. *)
Lemma with_net_then {A C : Type} (m : M Net A) (k : A -> M World C) (w : World) :
  (forall a, keeps_net (k a)) ->
  net (fst (bind (with_net m) k w)) = fst (m (net w)).
Proof.
  intros Hk. unfold bind, with_net.
  destruct (m (net w)) as [n' [e | a]]; simpl.
  - reflexivity.
  - rewrite Hk. reflexivity.
Qed.

Lemma bind_of_result {A C : Type} (r : Result A) (a : A) (k : A -> M World C) (w : World) :
  r = inr a -> bind (of_result r) k w = k a w.
Proof. intros ->. reflexivity. Qed.

Lemma bind_client_attr {C : Type} (method : string) (c : OdooClient)
      (k : OdooClient -> M World C) (w : World) :
  odoo_client w = Some c -> bind (client_attr method) k w = k c w.
Proof. intros H. unfold bind, client_attr. rewrite H. reflexivity. Qed.

(** *** Where each tool sends its request *)

Lemma route_list_models (w : World) (c : OdooClient) :
  odoo_client w = Some c ->
  net (fst (tool_list_models w)) = fst (list_models c (net w)).
Proof.
  intros Hc. unfold tool_list_models.
  rewrite (bind_client_attr _ c) by exact Hc.
  apply with_net_then. intros models.
  apply keeps_net_bind; [ | auto with keeps_net ].
  apply keeps_net_for_each. intros acc m.
  repeat (apply keeps_net_bind; [auto with keeps_net | intros ]).
  auto with keeps_net.
Qed.

Lemma route_search_records (w : World) (c : OdooClient) (arguments : Dict) (model : PyVal) :
  odoo_client w = Some c ->
  dict_getitem arguments "model" = inr model ->
  net (fst (tool_search_records arguments w)) =
  fst (search_read c model (dict_get arguments "domain" (PList []))
                   (dict_get arguments "fields" (PList []))
                   (dict_get arguments "limit" (PInt 10)) (net w)).
Proof.
  intros Hc Hm. unfold tool_search_records.
  rewrite (bind_of_result _ model) by exact Hm.
  rewrite (bind_client_attr _ c) by exact Hc.
  apply with_net_then. intros records.
  auto 10 with keeps_net.
Qed.

Lemma route_read_record (w : World) (c : OdooClient) (arguments : Dict)
      (model record_id : PyVal) :
  odoo_client w = Some c ->
  dict_getitem arguments "model" = inr model ->
  dict_getitem arguments "record_id" = inr record_id ->
  net (fst (tool_read_record arguments w)) =
  fst (read c model (PList [record_id]) (dict_get arguments "fields" (PList [])) (net w)).
Proof.
  intros Hc Hm Hr. unfold tool_read_record.
  rewrite (bind_of_result _ model) by exact Hm.
  rewrite (bind_of_result _ record_id) by exact Hr.
  rewrite (bind_client_attr _ c) by exact Hc.
  apply with_net_then. intros records.
  auto 10 with keeps_net.
Qed.

Lemma route_create_record (w : World) (c : OdooClient) (arguments : Dict)
      (model values : PyVal) :
  odoo_client w = Some c ->
  dict_getitem arguments "model" = inr model ->
  dict_getitem arguments "values" = inr values ->
  net (fst (tool_create_record arguments w)) = fst (create c model values (net w)).
Proof.
  intros Hc Hm Hv. unfold tool_create_record.
  rewrite (bind_of_result _ model) by exact Hm.
  rewrite (bind_of_result _ values) by exact Hv.
  rewrite (bind_client_attr _ c) by exact Hc.
  apply with_net_then. intros new_id.
  auto with keeps_net.
Qed.

Lemma route_update_record (w : World) (c : OdooClient) (arguments : Dict)
      (model record_id values : PyVal) :
  odoo_client w = Some c ->
  dict_getitem arguments "model" = inr model ->
  dict_getitem arguments "record_id" = inr record_id ->
  dict_getitem arguments "values" = inr values ->
  net (fst (tool_update_record arguments w)) =
  fst (update c model (PList [record_id]) values (net w)).
Proof.
  intros Hc Hm Hr Hv. unfold tool_update_record.
  rewrite (bind_of_result _ model) by exact Hm.
  rewrite (bind_of_result _ record_id) by exact Hr.
  rewrite (bind_of_result _ values) by exact Hv.
  rewrite (bind_client_attr _ c) by exact Hc.
  apply with_net_then. intros success.
  auto with keeps_net.
Qed.

Lemma route_delete_record (w : World) (c : OdooClient) (arguments : Dict)
      (model record_id : PyVal) :
  odoo_client w = Some c ->
  dict_getitem arguments "model" = inr model ->
  dict_getitem arguments "record_id" = inr record_id ->
  net (fst (tool_delete_record arguments w)) =
  fst (delete c model (PList [record_id]) (net w)).
Proof.
  intros Hc Hm Hr. unfold tool_delete_record.
  rewrite (bind_of_result _ model) by exact Hm.
  rewrite (bind_of_result _ record_id) by exact Hr.
  rewrite (bind_client_attr _ c) by exact Hc.
  apply with_net_then. intros success.
  auto with keeps_net.
Qed.

Lemma route_get_model_fields (w : World) (c : OdooClient) (arguments : Dict) (model : PyVal) :
  odoo_client w = Some c ->
  dict_getitem arguments "model" = inr model ->
  net (fst (tool_get_model_fields arguments w)) = fst (get_fields c model (net w)).
Proof.
  intros Hc Hm. unfold tool_get_model_fields.
  rewrite (bind_of_result _ model) by exact Hm.
  rewrite (bind_client_attr _ c) by exact Hc.
  apply with_net_then. intros fields.
  apply keeps_net_bind; [auto with keeps_net | intros items].
  apply keeps_net_bind; [ | auto with keeps_net ].
  apply keeps_net_for_each. intros acc x. apply keeps_net_describe_field.
Qed.

(** *** Every branch answers with one text *)

Ltac single_text H :=
  repeat first
    [ apply bind_returns in H; destruct H as (? & ? & _ & H); cbv beta in H
    | match type of H with (if ?c then _ else _) _ = _ => destruct c end ];
  match type of H with
  | ret _ _ = _ => inversion H; eexists; reflexivity
  end.

Lemma dispatch_single (nm : string) (arguments : Dict) (w w' : World) (r : list TextContent) :
  dispatch nm arguments w = (w', inr r) -> exists t, r = [text_content t].
Proof.
  unfold dispatch. intros H.
  repeat match type of H with
         | (if ?c then _ else _) _ = _ => destruct c
         end.
  - unfold tool_list_models in H. single_text H.
  - unfold tool_search_records in H. single_text H.
  - unfold tool_read_record in H. single_text H.
  - unfold tool_create_record in H. single_text H.
  - unfold tool_update_record in H. single_text H.
  - unfold tool_delete_record in H. single_text H.
  - unfold tool_get_model_fields in H. single_text H.
  - single_text H.
Qed.

Lemma call_tool_body_single (nm : string) (arguments : Dict) (w w' : World)
      (r : list TextContent) :
  call_tool_body nm arguments w = (w', inr r) -> exists t, r = [text_content t].
Proof.
  unfold call_tool_body. intros H.
  destruct (nm =? "connect_odoo").
  - single_text H.
  - apply bind_returns in H. destruct H as (w1 & w0 & _ & H). cbv beta in H.
    apply bind_returns in H. destruct H as (w2 & still & _ & H). cbv beta in H.
    destruct still.
    + single_text H.
    + apply dispatch_single in H. exact H.
Qed.

(** The handler of [call_tool]: what comes out of the [try] block is
    returned as it is, and an exception becomes one log record and one
    text. *)
Lemma call_tool_run (nm : string) (arguments : Dict) (w : World) :
  call_tool nm arguments w =
  match call_tool_body nm arguments w with
  | (w1, inr r) => (w1, inr r)
  | (w1, inl e) =>
    ({| odoo_client := odoo_client w1; net := net w1;
        logs := logs w1 ++ [(ERROR, "Error ejecutando " ++ nm ++ ": " ++ exc_str e)] |},
     inr [text_content (error_text e)])
  end.
Proof.
  unfold call_tool, try_except.
  destruct (call_tool_body nm arguments w) as [w1 [e | r]]; reflexivity.
Qed.

Lemma call_tool_net (nm : string) (arguments : Dict) (w : World) :
  net (fst (call_tool nm arguments w)) = net (fst (call_tool_body nm arguments w)).
Proof.
  rewrite call_tool_run.
  destruct (call_tool_body nm arguments w) as [w1 [e | r]]; reflexivity.
Qed.

(** C1.  Whatever the tool name, the arguments and the state of the
    process, [call_tool] returns normally with exactly one text.  When
    the body of its [try] block raises (a failed connection that
    surfaces as an exception, a missing session, a fault returned by the
    remote server, a missing or ill-typed argument), that text is the
    error text built from the exception, and the only trace left is one
    log record. *)
Theorem call_tool_never_raises :
  forall (nm : string) (arguments : Dict) (w : World),
  exists (w' : World) (t : string),
    call_tool nm arguments w = (w', inr [text_content t]) /\
    (forall w1 e,
        call_tool_body nm arguments w = (w1, inl e) ->
        t = error_text e /\
        odoo_client w' = odoo_client w1 /\ net w' = net w1 /\
        logs w' = (logs w1 ++ [(ERROR, ("Error ejecutando " ++ nm ++ ": " ++ exc_str e)%string)])%list).
Proof.
  intros nm arguments w. rewrite call_tool_run.
  destruct (call_tool_body nm arguments w) as [w1 [e | r]] eqn:Hbody.
  - eexists _, (error_text e). split; [reflexivity | ].
    intros w2 e2 H. inversion H; subst. repeat split.
  - destruct (call_tool_body_single _ _ _ _ _ Hbody) as [t Ht]. subst r.
    exists w1, t. split; [reflexivity | ].
    intros w2 e2 H. discriminate H.
Qed.

(** *** The connection guard *)

Lemma not_connect_odoo (nm : string) : nm <> "connect_odoo" -> (nm =? "connect_odoo") = false.
Proof. intros H. apply String.eqb_neq. exact H. Qed.

Lemma call_tool_body_live (nm : string) (arguments : Dict) (w : World) :
  nm <> "connect_odoo" ->
  session_missing w = false ->
  call_tool_body nm arguments w = dispatch nm arguments w.
Proof.
  intros Hnm Hs. unfold call_tool_body. rewrite (not_connect_odoo _ Hnm).
  unfold bind, get_world. rewrite Hs. reflexivity.
Qed.

Lemma call_tool_body_guard (nm : string) (arguments : Dict) (w : World) :
  nm <> "connect_odoo" ->
  session_missing w = true ->
  call_tool_body nm arguments w =
  match initialize_odoo w with
  | (w1, inl e) => (w1, inl e)
  | (w1, inr _) =>
    if session_missing w1 then (w1, inr [text_content not_connected_text])
    else dispatch nm arguments w1
  end.
Proof.
  intros Hnm Hs. unfold call_tool_body. rewrite (not_connect_odoo _ Hnm).
  unfold bind, get_world. rewrite Hs.
  destruct (initialize_odoo w) as [w1 [e | b]]; [reflexivity | ].
  unfold ret. destruct (session_missing w1); reflexivity.
Qed.




(** [connect_odoo] goes to [connect] on a client built from the
    configuration. *)
Lemma initialize_odoo_connects (w : World) (c : OdooClient) :
  OdooClient_init (odoo_url config) (odoo_database config)
                  (odoo_username config) (odoo_password config) = inr c ->
  exists extra,
    calls (net (fst (initialize_odoo w))) = (calls (fst (connect c (net w))) ++ extra)%list.
Proof.
  intros Hc. unfold initialize_odoo, bind, of_result. rewrite Hc. simpl.
  unfold with_net. simpl. rewrite connect_run.
  destruct (snd (transport (server (net w)) (auth_request c))) as [e | v]; simpl.
  - exists []. rewrite app_nil_r. reflexivity.
  - destruct (is_False v); simpl.
    + exists []. rewrite app_nil_r. reflexivity.
    + rewrite get_version_run. simpl.
      match goal with
      | |- context [py_get ?x ?k ?d] => destruct (py_get x k d)
      end; simpl; eexists [_]; reflexivity.
Qed.

Lemma route_connect_odoo (arguments : Dict) (w : World) :
  net (fst (call_tool "connect_odoo" arguments w)) = net (fst (initialize_odoo w)).
Proof.
  rewrite call_tool_net. unfold call_tool_body. simpl.
  unfold bind. destruct (initialize_odoo w) as [w1 [e | b]]; [reflexivity | ].
  destruct b; reflexivity.
Qed.

Lemma live_session (w : World) (c : OdooClient) :
  odoo_client w = Some c -> truthy (uid c) = true -> session_missing w = false.
Proof. intros Hc Hu. unfold session_missing. rewrite Hc, Hu. reflexivity. Qed.

Lemma call_tool_live_net (nm : string) (arguments : Dict) (w : World) :
  nm <> "connect_odoo" ->
  session_missing w = false ->
  net (fst (call_tool nm arguments w)) = net (fst (dispatch nm arguments w)).
Proof.
  intros Hnm Hs. rewrite call_tool_net, call_tool_body_live by assumption. reflexivity.
Qed.

Lemma unknown_tool_dispatch (nm : string) (arguments : Dict) (w : World) :
  ~ In nm tool_names ->
  nm <> "connect_odoo" /\
  dispatch nm arguments w = (w, inr [text_content (unknown_tool_text nm)]).
Proof.
  intros Hnot.
  assert (Hne : forall k, In k tool_names -> (nm =? k) = false).
  { intros k Hk. apply String.eqb_neq. intros Heq. subst k. exact (Hnot Hk). }
  split.
  - intros Heq. apply Hnot. subst nm. simpl. auto.
  - unfold dispatch.
    rewrite !Hne by (simpl; auto 10). reflexivity.
Qed.

Lemma call_tool_body_past_guard (nm : string) (arguments : Dict) (w w1 : World) :
  nm <> "connect_odoo" ->
  past_guard w w1 ->
  call_tool_body nm arguments w = dispatch nm arguments w1.
Proof.
  intros Hnm [Hs1 [-> | (Hs & b & Hinit)]].
  - apply call_tool_body_live; assumption.
  - rewrite (call_tool_body_guard nm arguments w Hnm Hs), Hinit, Hs1. reflexivity.
Qed.

Lemma call_tool_past_guard_net (nm : string) (arguments : Dict) (w w1 : World) :
  nm <> "connect_odoo" ->
  past_guard w w1 ->
  net (fst (call_tool nm arguments w)) = net (fst (dispatch nm arguments w1)).
Proof.
  intros Hnm Hpg.
  rewrite call_tool_net, (call_tool_body_past_guard nm arguments w w1 Hnm Hpg). reflexivity.
Qed.

(** C6, as the code has it.  [list_tools] returns the same catalog in
    every state: eight tools, named as listed, each with an object
    schema.  [connect_odoo] goes to [connect] on a client built from the
    configuration.  For every other call the connection guard comes
    first; whenever it hands the call on with a session identifier in
    place (the process held one, or the automatic connection returned
    with one), [call_tool] sends each of the seven other names, given the
    arguments its branch requires, to its client method
    ([search_records] to [search_read]) on the client of that process,
    and answers any name outside the catalog with the unknown-tool
    text. *)
Theorem catalog_and_routing :
  (forall w : World, list_tools w = (w, inr tool_catalog)) /\
  tool_names = ["connect_odoo"; "list_models"; "search_records"; "read_record";
                "create_record"; "update_record"; "delete_record"; "get_model_fields"] /\
  Forall (fun t => exists properties required,
              inputSchema t = object_schema properties required) tool_catalog /\
  (forall (arguments : Dict) (w : World) (c : OdooClient),
      OdooClient_init (odoo_url config) (odoo_database config)
                      (odoo_username config) (odoo_password config) = inr c ->
      exists extra,
        calls (net (fst (call_tool "connect_odoo" arguments w)))
        = (calls (fst (connect c (net w))) ++ extra)%list) /\
  (forall (w w1 : World) (c : OdooClient),
      past_guard w w1 ->
      odoo_client w1 = Some c ->
      (forall arguments,
          net (fst (call_tool "list_models" arguments w)) = fst (list_models c (net w1))) /\
      (forall arguments model,
          dict_getitem arguments "model" = inr model ->
          net (fst (call_tool "search_records" arguments w))
          = fst (search_read c model (dict_get arguments "domain" (PList []))
                             (dict_get arguments "fields" (PList []))
                             (dict_get arguments "limit" (PInt 10)) (net w1))) /\
      (forall arguments model record_id,
          dict_getitem arguments "model" = inr model ->
          dict_getitem arguments "record_id" = inr record_id ->
          net (fst (call_tool "read_record" arguments w))
          = fst (read c model (PList [record_id])
                      (dict_get arguments "fields" (PList [])) (net w1))) /\
      (forall arguments model values,
          dict_getitem arguments "model" = inr model ->
          dict_getitem arguments "values" = inr values ->
          net (fst (call_tool "create_record" arguments w))
          = fst (create c model values (net w1))) /\
      (forall arguments model record_id values,
          dict_getitem arguments "model" = inr model ->
          dict_getitem arguments "record_id" = inr record_id ->
          dict_getitem arguments "values" = inr values ->
          net (fst (call_tool "update_record" arguments w))
          = fst (update c model (PList [record_id]) values (net w1))) /\
      (forall arguments model record_id,
          dict_getitem arguments "model" = inr model ->
          dict_getitem arguments "record_id" = inr record_id ->
          net (fst (call_tool "delete_record" arguments w))
          = fst (delete c model (PList [record_id]) (net w1))) /\
      (forall arguments model,
          dict_getitem arguments "model" = inr model ->
          net (fst (call_tool "get_model_fields" arguments w))
          = fst (get_fields c model (net w1))) /\
      (forall nm arguments,
          ~ In nm tool_names ->
          call_tool nm arguments w = (w1, inr [text_content (unknown_tool_text nm)]))).
Proof.
  split; [intros w; reflexivity | ].
  split; [reflexivity | ].
  split.
  { unfold tool_catalog. repeat constructor; simpl; eexists _, _; reflexivity. }
  split.
  { intros arguments w c Hc. rewrite route_connect_odoo.
    apply initialize_odoo_connects. exact Hc. }
  intros w w1 c Hpg Hc.
  repeat apply conj; intros.
  - rewrite (call_tool_past_guard_net _ _ w w1) by (discriminate || exact Hpg).
    apply route_list_models. exact Hc.
  - rewrite (call_tool_past_guard_net _ _ w w1) by (discriminate || exact Hpg).
    apply route_search_records; assumption.
  - rewrite (call_tool_past_guard_net _ _ w w1) by (discriminate || exact Hpg).
    apply route_read_record; assumption.
  - rewrite (call_tool_past_guard_net _ _ w w1) by (discriminate || exact Hpg).
    apply route_create_record; assumption.
  - rewrite (call_tool_past_guard_net _ _ w w1) by (discriminate || exact Hpg).
    apply route_update_record; assumption.
  - rewrite (call_tool_past_guard_net _ _ w w1) by (discriminate || exact Hpg).
    apply route_delete_record; assumption.
  - rewrite (call_tool_past_guard_net _ _ w w1) by (discriminate || exact Hpg).
    apply route_get_model_fields; assumption.
  - match goal with H : ~ In _ _ |- _ =>
      destruct (unknown_tool_dispatch nm arguments w1 H) as [Hnm Hd]
    end.
    rewrite call_tool_run, (call_tool_body_past_guard nm arguments w w1 Hnm Hpg), Hd.
    reflexivity.
Qed.

(** C9.  In [read] and [search_read] an empty field list does what no
    field list does: the two calls are the same computation, and with a
    live session the request carries no [fields] keyword at all.  The
    dispatcher passes the empty list when the caller gives no [fields],
    so [read_record] and [search_records] then send such a request. *)
Theorem empty_fields_like_no_fields :
  (forall self model ids n,
      read self model ids (PList []) n = read self model ids default_fields n) /\
  (forall self model domain limit n,
      search_read self model domain (PList []) limit n
      = search_read self model domain default_fields limit n) /\
  (forall self model ids n,
      truthy (uid self) = true ->
      fst (read self model ids (PList []) n)
      = sent n (kw_request self model "read" [ids] [PDict []])) /\
  (forall self model domain limit n,
      truthy (uid self) = true ->
      fst (search_read self model domain (PList []) limit n)
      = sent n (kw_request self model "search_read" [py_or domain (PList [])]
                           [PDict [("limit", limit)]])) /\
  (forall (w : World) (c : OdooClient) arguments model record_id,
      odoo_client w = Some c ->
      truthy (uid c) = true ->
      dict_getitem arguments "model" = inr model ->
      dict_getitem arguments "record_id" = inr record_id ->
      dict_lookup arguments "fields" = None ->
      net (fst (call_tool "read_record" arguments w))
      = sent (net w) (kw_request c model "read" [PList [record_id]] [PDict []])) /\
  (forall (w : World) (c : OdooClient) arguments model,
      odoo_client w = Some c ->
      truthy (uid c) = true ->
      dict_getitem arguments "model" = inr model ->
      dict_lookup arguments "fields" = None ->
      net (fst (call_tool "search_records" arguments w))
      = sent (net w)
             (kw_request c model "search_read"
                         [py_or (dict_get arguments "domain" (PList [])) (PList [])]
                         [PDict [("limit", dict_get arguments "limit" (PInt 10))]])).
Proof.
  repeat apply conj.
  - intros. reflexivity.
  - intros. reflexivity.
  - intros self model ids n H. rewrite read_live by exact H. reflexivity.
  - intros self model domain limit n H. rewrite search_read_live by exact H. reflexivity.
  - intros w c arguments model record_id Hc Hu Hm Hr Hf.
    rewrite call_tool_live_net by (discriminate || exact (live_session w c Hc Hu)).
    change (dispatch "read_record" arguments) with (tool_read_record arguments).
    rewrite (route_read_record w c arguments model record_id Hc Hm Hr).
    unfold dict_get at 1. rewrite Hf.
    rewrite read_live by exact Hu. reflexivity.
  - intros w c arguments model Hc Hu Hm Hf.
    rewrite call_tool_live_net by (discriminate || exact (live_session w c Hc Hu)).
    change (dispatch "search_records" arguments) with (tool_search_records arguments).
    rewrite (route_search_records w c arguments model Hc Hm).
    unfold dict_get at 2. rewrite Hf.
    rewrite search_read_live by exact Hu. reflexivity.
Qed.

(** A successful round trip, read off the result of a request. *)
Lemma answered (n : Net) (req : Request) (v : PyVal) :
  snd (transport (server n) req) = inr v ->
  exists s', transport (server n) req = (s', inr v).
Proof.
  destruct (transport (server n) req) as [s' r]. simpl. intros ->.
  exists s'. reflexivity.
Qed.

(** C5.  On a remote server that honours the limit it is given, and with
    a live session: [search] called with no domain (or the empty one) and
    the default limit sends the empty domain and the limit 100, and what
    it returns is a list of at most 100 identifiers.  The [search_records]
    tool, given neither domain nor limit, goes to [search_read] with the
    empty domain and its own default limit, 10, and gets at most 10
    records. *)
Theorem search_default_limit_bounds_result :
  honours_limit ->
  (forall (self : OdooClient) (model domain : PyVal) (n : Net),
      truthy (uid self) = true ->
      domain = default_domain \/ domain = PList [] ->
      fst (search self model domain default_limit n)
      = sent n (kw_request self model "search" [PList []] [PDict [("limit", PInt 100)]]) /\
      (forall v, snd (search self model domain default_limit n) = inr v ->
                 exists ids, v = PList ids /\ length ids <= 100)) /\
  (forall (w : World) (c : OdooClient) (arguments : Dict) (model : PyVal),
      odoo_client w = Some c ->
      truthy (uid c) = true ->
      dict_getitem arguments "model" = inr model ->
      dict_lookup arguments "domain" = None ->
      dict_lookup arguments "limit" = None ->
      let fields := dict_get arguments "fields" (PList []) in
      net (fst (call_tool "search_records" arguments w))
      = fst (search_read c model (PList []) fields (PInt 10) (net w)) /\
      (forall v, snd (search_read c model (PList []) fields (PInt 10) (net w)) = inr v ->
                 exists records, v = PList records /\ length records <= 10)).
Proof.
  intros Hlimit. split.
  - intros self model domain n Hu Hdom.
    rewrite search_live by exact Hu.
    assert (Hd : py_or domain (PList []) = PList [])
      by (destruct Hdom; subst domain; reflexivity).
    rewrite Hd. simpl. split; [reflexivity | ].
    intros v Hv. apply answered in Hv. destruct Hv as [s' Hv].
    destruct (Hlimit _ _ _ _ 100%Z Hv eq_refl ltac:(lia)) as (ids & -> & Hlen).
    exists ids. split; [reflexivity | lia].
  - intros w c arguments model Hc Hu Hm Hd Hl fields. split.
    + rewrite call_tool_live_net by (discriminate || exact (live_session w c Hc Hu)).
      change (dispatch "search_records" arguments) with (tool_search_records arguments).
      rewrite (route_search_records w c arguments model Hc Hm).
      unfold dict_get at 1 3. rewrite Hd, Hl. reflexivity.
    + intros v. rewrite search_read_live by exact Hu. simpl.
      intros Hv. apply answered in Hv. destruct Hv as [s' Hv].
      assert (Hreq : request_limit
                       (kw_request c model "search_read" [py_or (PList []) (PList [])]
                          [PDict (if truthy fields
                                  then [("limit", PInt 10); ("fields", fields)]
                                  else [("limit", PInt 10)])]) = Some 10%Z)
        by (destruct (truthy fields); reflexivity).
      destruct (Hlimit _ _ _ _ 10%Z Hv Hreq ltac:(lia)) as (l & -> & Hlen).
      exists l. split; [reflexivity | lia].
Qed.

(** *** [list_models] *)

Lemma model_entries_spec (l xs : list PyVal) :
  model_entries l = inr xs -> length xs = length l /\ Forall is_model_entry xs.
Proof.
  revert xs. induction l as [ | m rest IH]; intros xs H; simpl in H.
  - inversion H. split; [reflexivity | constructor].
  - unfold model_entry in H.
    destruct (py_getitem m "model") as [e | mo]; [discriminate | ].
    destruct (py_getitem m "name") as [e | na]; [discriminate | ].
    destruct (model_entries rest) as [e | ys]; [discriminate | ].
    inversion H; subst xs. destruct (IH ys eq_refl) as [Hlen Hall].
    split; [simpl; rewrite Hlen; reflexivity | ].
    constructor; [exists mo, na; reflexivity | exact Hall].
Qed.

Lemma Forall_prefix {A : Type} (P : A -> Prop) (k : nat) (l : list A) :
  Forall P l -> Forall P (firstn k l).
Proof.
  intros H. revert k. induction H as [ | x l Hx _ IH]; intros [ | k]; simpl;
    constructor; auto.
Qed.

(** The loop that lists the models never raises on such entries. *)
Lemma listing_returns (ms : list PyVal) :
  Forall is_model_entry ms ->
  forall (acc : string) (w : World),
  exists shown,
    for_each ms
      (fun result m =>
         mo <- of_result (py_getitem m "model") ;;
         na <- of_result (py_getitem m "name") ;;
         ret (result ++ "  • " ++ py_str mo ++ ": " ++ py_str na ++ nl))
      acc w = (w, inr shown).
Proof.
  induction 1 as [ | m rest Hm _ IH]; intros acc w; simpl.
  - exists acc. reflexivity.
  - destruct Hm as (mo & na & ->).
    unfold bind at 1. simpl. apply IH.
Qed.

Lemma list_models_bounded :
  honours_limit ->
  forall (self : OdooClient) (n : Net) (ms : list PyVal),
    truthy (uid self) = true ->
    snd (list_models self n) = inr ms ->
    length ms <= 500 /\ Forall is_model_entry ms.
Proof.
  intros Hlimit self n ms Hu. rewrite list_models_live by exact Hu. simpl.
  destruct (transport (server n) (list_models_request self)) as [s' [e | models]] eqn:Ht;
    simpl; [discriminate | ].
  destruct (Hlimit _ _ _ _ 500%Z Ht eq_refl ltac:(lia)) as (l & -> & Hlen).
  simpl. intros H. apply model_entries_spec in H. destruct H as [Hl Hall].
  split; [lia | exact Hall].
Qed.

(** C8.  The catalog describes [list_models] as listing all the models,
    but the client's [list_models] sends a single [search_read] with the
    fixed limit 500.  On a remote server that honours the limit, the
    client therefore returns at most 500 entries however many models
    exist, and the count the tool reports in its answer is the length of
    that list. *)
Theorem list_models_capped_at_500 :
  In {| name := "list_models";
        description := "Listar todos los modelos disponibles en Odoo";
        inputSchema := object_schema [] [] |} tool_catalog /\
  (forall (self : OdooClient) (n : Net),
      truthy (uid self) = true ->
      fst (list_models self n) = sent n (list_models_request self) /\
      request_limit (list_models_request self) = Some 500%Z) /\
  (honours_limit ->
   forall (self : OdooClient) (n : Net) (ms : list PyVal),
     truthy (uid self) = true ->
     snd (list_models self n) = inr ms ->
     length ms <= 500) /\
  (honours_limit ->
   forall (w : World) (c : OdooClient) (arguments : Dict) (ms : list PyVal),
     odoo_client w = Some c ->
     truthy (uid c) = true ->
     snd (list_models c (net w)) = inr ms ->
     length ms <= 500 /\
     exists (w' : World) (shown : string),
       call_tool "list_models" arguments w
       = (w', inr [text_content
                     (shown ++ nl ++ "(Mostrando 20 de "
                        ++ py_str (PInt (Z.of_nat (length ms))) ++ " modelos)")])).
Proof.
  split; [simpl; auto | ].
  split.
  { intros self n Hu. rewrite list_models_live by exact Hu. split; reflexivity. }
  split.
  { intros Hlimit self n ms Hu Hms.
    exact (proj1 (list_models_bounded Hlimit self n ms Hu Hms)). }
  intros Hlimit w c arguments ms Hc Hu Hms.
  destruct (list_models_bounded Hlimit c (net w) ms Hu Hms) as [Hlen Hall].
  split; [exact Hlen | ].
  rewrite call_tool_run.
  rewrite call_tool_body_live by (discriminate || exact (live_session w c Hc Hu)).
  change (dispatch "list_models" arguments) with tool_list_models.
  unfold tool_list_models.
  rewrite (bind_client_attr _ c) by exact Hc.
  unfold bind at 1. unfold with_net.
  destruct (list_models c (net w)) as [n' r]. simpl in Hms. subst r.
  cbv beta iota.
  destruct (listing_returns (firstn 20 ms) (Forall_prefix _ 20 _ Hall)
              ("📋 Modelos disponibles:" ++ nl)
              {| odoo_client := odoo_client w; net := n'; logs := logs w |})
    as [shown Hshown].
  rewrite (bind_inr _ _ _ _ _ Hshown). eexists _, shown. reflexivity.
Qed.

End Properties.

(** * The sample environment obeys the two laws *)

Lemma dict_lookup_app (d extra : Dict) (k : string) (v : PyVal) :
  dict_lookup d k = Some v -> dict_lookup (d ++ extra)%list k = Some v.
Proof.
  induction d as [ | [k' v'] rest IH]; simpl; intros H.
  - discriminate.
  - destruct (k' =? k); [exact H | apply IH; exact H].
Qed.

Lemma sample_execute_limit (s s' : Store) (model meth : string) (args : list PyVal)
      (kw : Dict) (n : Z) (v : PyVal) :
  (meth =? "search") || (meth =? "search_read") = true ->
  dict_lookup kw "limit" = Some (PInt n) ->
  (0 < n)%Z ->
  sample_execute s model meth args [PDict kw] = (s', inr v) ->
  exists l, v = PList l /\ (Z.of_nat (length l) <= n)%Z.
Proof.
  intros Hmeth Hkw Hn. unfold sample_execute.
  destruct (meth =? "create") eqn:Hc.
  { apply String.eqb_eq in Hc. subst meth. discriminate Hmeth. }
  destruct (meth =? "read") eqn:Hr.
  { apply String.eqb_eq in Hr. subst meth. discriminate Hmeth. }
  assert (Hlim : limit_of [PDict kw] = Some n) by (unfold limit_of; rewrite Hkw; reflexivity).
  rewrite Hlim.
  destruct (meth =? "search"); [ | destruct (meth =? "search_read"); [ | discriminate ] ];
    intros H; inversion H; subst; eexists; (split; [reflexivity | ]);
    match goal with
    | |- (Z.of_nat (length (firstn _ ?l)) <= _)%Z =>
      pose proof (firstn_le_length (Z.to_nat n) l) as Hle
    end; lia.
Qed.

Lemma demo_honours_limit : @honours_limit demo.
Proof.
  intros s s' [ep mn ps] v n Ht Hreq Hn.
  unfold request_limit in Hreq. simpl in Ht, Hreq.
  destruct (mn =? "execute_kw") eqn:Hmn; [ | discriminate ].
  apply String.eqb_eq in Hmn. subst mn.
  repeat match type of Hreq with
         | match ?x with _ => _ end = Some _ =>
           first [ is_var x; destruct x | destruct x eqn:? ]; try discriminate Hreq
         | (if ?c then _ else _) = Some _ =>
           destruct c eqn:?; try discriminate Hreq
         end.
  inversion Hreq; subst.
  unfold sample_transport in Ht. simpl in Ht.
  repeat match type of Ht with
         | match ?x with _ => _ end = _ => is_var x; destruct x; try discriminate Ht
         end.
  eapply sample_execute_limit; eassumption.
Qed.

Lemma demo_keeps_records : @keeps_records demo.
Proof.
  intros s s1 ep dbn usr pw model vs id Ht.
  simpl in Ht. unfold sample_transport in Ht. simpl in Ht.
  destruct dbn; try discriminate.
  destruct usr as [ | | z | | | ]; try discriminate.
  destruct z as [ | p | p ]; try discriminate.
  destruct p as [ p | p | ]; try discriminate.
  destruct p; try discriminate.
  destruct pw; try discriminate.
  destruct model as [ | | | m | | ]; try discriminate.
  unfold sample_execute in Ht. simpl in Ht.
  inversion Ht; subst s1 id. clear Ht.
  exists {| rows := (m, next_id s, vs) :: rows s; next_id := (next_id s + 1)%Z |}.
  exists (vs ++ [("id", PInt (next_id s))])%list.
  split.
  - simpl. unfold sample_transport. simpl. unfold sample_execute. simpl.
    rewrite String.eqb_refl, Z.eqb_refl. reflexivity.
  - intros k v Hk. apply dict_lookup_app. exact Hk.
Qed.

(** * The properties at work on the sample environment *)

(** C1 at work: [create_record] without its [values] on the demo server. *)
Lemma call_tool_never_raises_witness :
  exists w',
    @call_tool demo "create_record" [("model", PStr "res.partner")]
               (live_world demo empty_store)
    = (w', inr [text_content "❌ Error: 'values'"]).
Proof.
  destruct (@call_tool_never_raises demo "create_record" [("model", PStr "res.partner")]
              (live_world demo empty_store)) as (w' & t & Hcall & Herr).
  exists w'. rewrite Hcall.
  destruct (Herr (live_world demo empty_store) (KeyError (PStr "values")) eq_refl) as [Ht _].
  rewrite Ht. reflexivity.
Defined.



(** C3 at work: the same [search], without and with a session. *)
Lemma crud_wrappers_require_session_witness :
  @search demo demo_client (PStr "res.partner") default_domain default_limit
          (fresh_net demo two_partners)
  = (fresh_net demo two_partners, inl not_connected) /\
  exists req,
    calls (fst (@search demo demo_session (PStr "res.partner") default_domain default_limit
                        (fresh_net demo two_partners))) = [req].
Proof.
  destruct (@crud_wrappers_require_session demo) as (_ & _ & Hsearch & _).
  destruct (Hsearch (PStr "res.partner") default_domain default_limit
                    demo_client (fresh_net demo two_partners)) as [Hno _].
  destruct (Hsearch (PStr "res.partner") default_domain default_limit
                    demo_session (fresh_net demo two_partners)) as [_ Hyes].
  split.
  - apply Hno. reflexivity.
  - destruct (Hyes eq_refl) as (req & _ & Hsent). exists req. rewrite Hsent. reflexivity.
Defined.

(** C4 at work: the demo server accepts the demo credentials. *)
Lemma connect_true_iff_authenticated_witness :
  exists n' self',
    @connect demo demo_client (fresh_net demo empty_store) = (n', inr (self', true)) /\
    uid self' = PInt 2.
Proof.
  destruct (@connect_true_iff_authenticated demo demo_client (fresh_net demo empty_store))
    as (n' & self' & b & Hrun & _ & Hiff & Huid & _).
  assert (Hb : b = true).
  { apply Hiff. exists empty_store, (PInt 2). split; [reflexivity | discriminate]. }
  subst b. exists n', self'. split; [exact Hrun | ].
  apply (Huid empty_store). reflexivity.
Defined.

(** C5 at work: two partners are fewer than a hundred. *)
Lemma search_default_limit_witness :
  exists ids,
    snd (@search demo demo_session (PStr "res.partner") default_domain default_limit
                 (fresh_net demo two_partners)) = inr (PList ids) /\
    length ids <= 100.
Proof.
  destruct (@search_default_limit_bounds_result demo demo_honours_limit) as [Hsearch _].
  destruct (Hsearch demo_session (PStr "res.partner") default_domain
                    (fresh_net demo two_partners) eq_refl (or_introl eq_refl)) as [_ Hbound].
  destruct (Hbound _ eq_refl) as (ids & Hv & Hlen).
  exists ids. split; [ | exact Hlen ].
  rewrite <- Hv. reflexivity.
Defined.

(** C6 at work, from a cold start on the demo server: the automatic
    connection succeeds, a name outside the catalog gets the unknown-tool
    text, and [read_record] goes to [read] on the client just connected. *)
Lemma catalog_and_routing_witness :
  snd (@call_tool demo "drop_database" [] (fresh_world demo two_partners))
  = inr [text_content "❌ Herramienta desconocida: drop_database"] /\
  net (fst (@call_tool demo "read_record"
                       [("model", PStr "res.partner"); ("record_id", PInt 1)]
                       (fresh_world demo two_partners)))
  = fst (@read demo demo_session (PStr "res.partner") (PList [PInt 1]) (PList [])
               (net (fst (@initialize_odoo demo (fresh_world demo two_partners))))).
Proof.
  destruct (@catalog_and_routing demo) as (_ & _ & _ & _ & Hrouted).
  destruct (Hrouted (fresh_world demo two_partners)
                    (fst (@initialize_odoo demo (fresh_world demo two_partners)))
                    demo_session)
    as (_ & _ & Hread & _ & _ & _ & _ & Hunknown).
  - split; [reflexivity | ]. right. split; [reflexivity | ].
    exists true. reflexivity.
  - reflexivity.
  - split.
    + rewrite Hunknown by (simpl; intuition discriminate). reflexivity.
    + exact (Hread [("model", PStr "res.partner"); ("record_id", PInt 1)]
                   (PStr "res.partner") (PInt 1) eq_refl eq_refl).
Defined.

(** C6 as stated fails in three ways.  Without a session, and with
    nobody listening, a name outside the catalog gets the not-connected
    text.  Without a session, on a server that authenticates but answers
    [version] with a bare string, the automatic connection raises with
    the session identifier already stored, and the same name gets the
    error text.  With a session, [read_record] called without its
    arguments never reaches [read]: nothing is sent and the answer is the
    error text of the [KeyError]. *)
Lemma routing_counterexample :
  (~ In "drop_database" tool_names /\
   snd (@call_tool offline "drop_database" [] (fresh_world offline empty_store))
   = inr [text_content not_connected_text] /\
   snd (@call_tool offline "drop_database" [] (fresh_world offline empty_store))
   <> inr [text_content (unknown_tool_text "drop_database")]) /\
  (session_missing
     (fst (@call_tool bare_version "drop_database" [] (fresh_world bare_version empty_store)))
   = false /\
   snd (@call_tool bare_version "drop_database" [] (fresh_world bare_version empty_store))
   = inr [text_content (@error_text bare_version (AttributeError (PStr "18.0") "get"))] /\
   snd (@call_tool bare_version "drop_database" [] (fresh_world bare_version empty_store))
   <> inr [text_content (unknown_tool_text "drop_database")]) /\
  (In "read_record" tool_names /\
   session_missing (live_world demo two_partners) = false /\
   calls (net (fst (@call_tool demo "read_record" [] (live_world demo two_partners)))) = [] /\
   snd (@call_tool demo "read_record" [] (live_world demo two_partners))
   = inr [text_content (@error_text demo (KeyError (PStr "model")))]).
Proof.
  split; [ | split ].
  - split; [simpl; intuition discriminate | ].
    split; [reflexivity | ].
    intros H. vm_compute in H. discriminate H.
  - split; [reflexivity | ]. split; [reflexivity | ].
    intros H. vm_compute in H. discriminate H.
  - split; [simpl; auto 10 | ].
    split; [reflexivity | ]. split; reflexivity.
Qed.

(** C7 at work: Ada is created and read back. *)
Lemma create_then_read_witness :
  exists n1 n2 rec,
    @create demo demo_session (PStr "res.partner") (PDict [("name", PStr "Ada")])
            (fresh_net demo empty_store) = (n1, inr (PInt 1)) /\
    @read demo demo_session (PStr "res.partner") (PList [PInt 1]) default_fields n1
    = (n2, inr (PList [PDict rec])) /\
    dict_includes rec [("name", PStr "Ada")].
Proof.
  destruct (@create_then_read_returns_values demo demo_session (PStr "res.partner")
              [("name", PStr "Ada")] (fresh_net demo empty_store)) as [_ Hlive].
  destruct (Hlive eq_refl) as [_ Hround].
  destruct (Hround {| rows := [("res.partner", 1%Z, [("name", PStr "Ada")])]; next_id := 2 |}
                   (PInt 1) eq_refl demo_keeps_records)
    as (n2 & rec & Hcreate & Hread & Hinc).
  eexists _, n2, rec. split; [exact Hcreate | ]. split; [exact Hread | exact Hinc].
Defined.

(** C7 as stated fails: not every call of [create] returns an
    identifier, even on a server that keeps what it is given.  Without a
    session [create] raises before anything is sent; with one, a value
    map that holds [None] does not marshal and the call raises with
    nothing created. *)
Lemma create_counterexample :
  @keeps_records demo /\
  @create demo demo_client (PStr "res.partner") (PDict [("name", PStr "Ada")])
          (fresh_net demo empty_store)
  = (fresh_net demo empty_store, inl not_connected) /\
  snd (@create marshalling demo_session (PStr "res.partner") (PDict [("name", PNone)])
               (fresh_net marshalling empty_store))
  = inl TypeError /\
  server (fst (@create marshalling demo_session (PStr "res.partner")
                       (PDict [("name", PNone)]) (fresh_net marshalling empty_store)))
  = empty_store.
Proof.
  split; [exact demo_keeps_records | ].
  split; [reflexivity | ]. split; reflexivity.
Qed.

(** C8 at work: the server holds six hundred models and honours the
    limit; the client returns five hundred of them and the tool reports
    five hundred. *)
Lemma list_models_capped_witness :
  length (rows many_models) = 600 /\
  exists ms,
    snd (@list_models demo demo_session (fresh_net demo many_models)) = inr ms /\
    length ms = 500 /\
    nth_error ms 499
    = Some (PDict [("model", PStr "x_model_500"); ("name", PStr "Model 500")]) /\
    exists w' shown,
      @call_tool demo "list_models" [] (live_world demo many_models)
      = (w', inr [text_content (shown ++ nl ++ "(Mostrando 20 de 500 modelos)")]).
Proof.
  split; [vm_compute; reflexivity | ].
  pose (ms := match snd (@list_models demo demo_session (fresh_net demo many_models)) with
              | inr l => l
              | inl _ => []
              end).
  assert (Hms : snd (@list_models demo demo_session (fresh_net demo many_models)) = inr ms)
    by (vm_compute; reflexivity).
  assert (Hlen : length ms = 500) by (vm_compute; reflexivity).
  exists ms. split; [exact Hms | ]. split; [exact Hlen | ].
  split; [vm_compute; reflexivity | ].
  destruct (@list_models_capped_at_500 demo) as (_ & _ & _ & Htool).
  destruct (Htool demo_honours_limit (live_world demo many_models) demo_session [] ms
                  eq_refl eq_refl Hms) as (_ & w' & shown & Hcall).
  exists w', shown. rewrite Hcall, Hlen. reflexivity.
Defined.

(** C9 at work: [read_record] without [fields] sends no [fields] keyword. *)
Lemma empty_fields_witness :
  calls (net (fst (@call_tool demo "read_record"
                              [("model", PStr "res.partner"); ("record_id", PInt 1)]
                              (live_world demo two_partners))))
  = [ {| endpoint := "http://localhost:8069/xmlrpc/2/object";
         methodname := "execute_kw";
         params := [PStr "demo"; PInt 2; PStr "admin"; PStr "res.partner"; PStr "read";
                    PList [PList [PInt 1]]; PDict []] |} ].
Proof.
  destruct (@empty_fields_like_no_fields demo) as (_ & _ & _ & _ & Hread & _).
  rewrite (Hread (live_world demo two_partners) demo_session
                 [("model", PStr "res.partner"); ("record_id", PInt 1)]
                 (PStr "res.partner") (PInt 1) eq_refl eq_refl eq_refl eq_refl eq_refl).
  reflexivity.
Defined.

(** C10 at work: a session is held, the server goes away, [connect] fails
    and the session identifier is still there. *)
Lemma failed_connect_witness :
  exists n' self',
    @connect offline demo_session (fresh_net offline empty_store) = (n', inr (self', false)) /\
    uid self' = PInt 2 /\ truthy (uid self') = true.
Proof.
  destruct (@failed_connect_keeps_session offline demo_session (fresh_net offline empty_store)
              empty_store (OSError "[Errno 111] Connection refused") eq_refl)
    as (n' & self' & Hrun & _ & _ & _ & _ & Huid & Hlive).
  exists n', self'. split; [exact Hrun | ].
  split; [rewrite Huid; reflexivity | apply Hlive; reflexivity].
Defined.

(** * Further behaviour of the client and of the dispatcher *)

Section Behaviour.

Context {E : Environment}.

(** ** The client *)

(** X1.  [get_version] has no session check and never raises: with or
    without a session identifier it sends one [version] request and
    returns the answer, or the dictionary [{"error": str(e)}] when the
    request raises. *)
Theorem get_version_needs_no_session :
  forall (self : OdooClient) (n : Net),
  exists v : PyVal,
    get_version self n = (sent n (version_request self), inr v) /\
    (forall s' a, transport (server n) (version_request self) = (s', inr a) -> v = a) /\
    (forall s' e, transport (server n) (version_request self) = (s', inl e) ->
                  v = PDict [("error", PStr (exc_str e))]).
Proof.
  intros self n. rewrite get_version_run. cbv zeta. fold (version_request self).
  eexists. split; [reflexivity | ].
  split; intros s' x Hx; rewrite Hx; reflexivity.
Qed.

Lemma falsy_uid_raises (self : OdooClient) :
  truthy (uid self) = false -> every_wrapper_raises self.
Proof.
  intros H n.
  repeat split; intros;
    cbv beta delta [search read search_read create update delete get_fields list_models];
    rewrite H; reflexivity.
Qed.

(** X2.  [connect] returning [True] does not mean a usable session.  When
    the server answers [authenticate] with a falsy value other than
    [False] (0, [None], an empty string or list), [connect] stores it and
    returns [True], and from then on every one of the eight wrappers,
    whatever its arguments and whenever it is called, raises
    "No conectado a Odoo" without sending anything. *)
Theorem connect_true_without_session :
  forall (self : OdooClient) (n : Net) (s' : RS) (v : PyVal),
    transport (server n) (auth_request self) = (s', inr v) ->
    v <> PBool false ->
    truthy v = false ->
    exists (n' : Net) (self' : OdooClient),
      connect self n = (n', inr (self', true)) /\
      uid self' = v /\
      every_wrapper_raises self'.
Proof.
  intros self n s' v Ht Hne Hfalsy. rewrite connect_run, Ht. simpl.
  apply is_False_false in Hne. rewrite Hne. simpl.
  eexists _, (set_uid self v). split; [reflexivity | ].
  split; [reflexivity | ].
  apply falsy_uid_raises. exact Hfalsy.
Qed.

(** X3.  When the server answers [authenticate] with [False], [connect]
    stores that [False]: a client that held a live session before loses
    it, nothing is printed, and from then on every one of the eight
    wrappers, whatever its arguments and whenever it is called, raises
    "No conectado a Odoo" without sending anything. *)
Theorem rejected_connect_clears_session :
  forall (self : OdooClient) (n : Net) (s' : RS),
    transport (server n) (auth_request self) = (s', inr (PBool false)) ->
    exists (n' : Net) (self' : OdooClient),
      connect self n = (n', inr (self', false)) /\
      uid self' = PBool false /\
      stdout n' = stdout n /\
      every_wrapper_raises self'.
Proof.
  intros self n s' Ht. rewrite connect_run, Ht. simpl.
  eexists _, (set_uid self (PBool false)).
  split; [reflexivity | ]. split; [reflexivity | ]. split; [reflexivity | ].
  apply falsy_uid_raises. reflexivity.
Qed.

(** X4.  [search] and [search_read] replace every falsy domain ([None],
    [False], 0, the empty string, the empty list or dictionary) by the
    empty list, and pass any other domain on unchanged. *)
Theorem falsy_domain_is_empty_domain :
  forall (self : OdooClient) (model domain fields limit : PyVal) (n : Net),
    (truthy domain = false ->
     search self model domain limit n = search self model (PList []) limit n /\
     search_read self model domain fields limit n
     = search_read self model (PList []) fields limit n) /\
    (truthy domain = true ->
     truthy (uid self) = true ->
     fst (search self model domain limit n)
     = sent n (kw_request self model "search" [domain] [PDict [("limit", limit)]]) /\
     fst (search_read self model domain fields limit n)
     = sent n (kw_request self model "search_read" [domain]
                          [PDict (if truthy fields
                                  then [("limit", limit); ("fields", fields)]
                                  else [("limit", limit)])])).
Proof.
  intros self model domain fields limit n. split.
  - intros Hd. unfold search, search_read, py_or. rewrite Hd. split; reflexivity.
  - intros Hd Hu. split.
    + rewrite search_live by exact Hu. unfold py_or. rewrite Hd. reflexivity.
    + rewrite search_read_live by exact Hu. unfold py_or. rewrite Hd. reflexivity.
Qed.

Lemma model_entries_accepts (l : list PyVal) :
  (exists xs, model_entries l = inr xs) <-> Forall has_model_and_name l.
Proof.
  induction l as [ | m rest IH]; simpl.
  - split; [constructor | exists []; reflexivity].
  - unfold model_entry. split.
    + intros [xs H].
      destruct (py_getitem m "model") as [e | mo] eqn:Hmo; [discriminate | ].
      destruct (py_getitem m "name") as [e | na] eqn:Hna; [discriminate | ].
      destruct (model_entries rest) as [e | ys]; [discriminate | ].
      constructor; [exists mo, na; split; assumption | ].
      apply IH. exists ys. reflexivity.
    + intros H. inversion H as [ | ? ? (mo & na & Hmo & Hna) Hrest]; subst.
      rewrite Hmo, Hna. apply IH in Hrest. destruct Hrest as [ys Hys].
      rewrite Hys. eexists. reflexivity.
Qed.

Lemma model_entries_project (l xs : list PyVal) :
  model_entries l = inr xs ->
  Forall2 (fun m x => exists mo na,
               py_getitem m "model" = inr mo /\ py_getitem m "name" = inr na /\
               x = PDict [("model", mo); ("name", na)]) l xs.
Proof.
  revert xs. induction l as [ | m rest IH]; intros xs H; simpl in H.
  - inversion H. constructor.
  - unfold model_entry in H.
    destruct (py_getitem m "model") as [e | mo] eqn:Hmo; [discriminate | ].
    destruct (py_getitem m "name") as [e | na] eqn:Hna; [discriminate | ].
    destruct (model_entries rest) as [e | ys]; [discriminate | ].
    inversion H; subst xs. constructor; [ | apply IH; reflexivity ].
    exists mo, na. repeat split; assumption.
Qed.

(** X5.  [list_models] is all or nothing.  When the server answers with
    a list, the call returns exactly when every record of the list is a
    dictionary holding both [model] and [name]; the result then has one
    entry per record, in the same order, reduced to those two keys.  One
    record without them makes the whole call raise. *)
Theorem list_models_all_or_nothing :
  forall (self : OdooClient) (n : Net) (s' : RS) (l : list PyVal),
    truthy (uid self) = true ->
    transport (server n) (list_models_request self) = (s', inr (PList l)) ->
    ((exists xs, snd (list_models self n) = inr xs) <-> Forall has_model_and_name l) /\
    (forall xs,
        snd (list_models self n) = inr xs ->
        Forall2 (fun m x => exists mo na,
                     py_getitem m "model" = inr mo /\ py_getitem m "name" = inr na /\
                     x = PDict [("model", mo); ("name", na)]) l xs).
Proof.
  intros self n s' l Hu Ht. rewrite list_models_live by exact Hu.
  rewrite Ht. simpl. split.
  - apply model_entries_accepts.
  - apply model_entries_project.
Qed.

(** ** [initialize_odoo], step by step *)

Lemma initialize_odoo_unbuilt (w : World) (e : Exc) :
  configured_client = inl e -> initialize_odoo w = (w, inl e).
Proof.
  unfold configured_client. intros H.
  unfold initialize_odoo, bind, of_result. rewrite H. reflexivity.
Qed.

Lemma initialize_odoo_run (w : World) (c : OdooClient) :
  configured_client = inr c ->
  initialize_odoo w =
  match snd (transport (server (net w)) (auth_request c)) with
  | inl e =>
    ({| odoo_client := Some c;
        net := {| server := server (sent (net w) (auth_request c));
                  calls := calls (sent (net w) (auth_request c));
                  stdout := stdout (net w)
                              ++ [("Error conectando: " ++ exc_str e)%string] |};
        logs := logs w ++ [(ERROR, "❌ No se pudo conectar a Odoo")] |},
     inr false)
  | inr v =>
    if is_False v then
      ({| odoo_client := Some (set_uid c v);
          net := sent (net w) (auth_request c);
          logs := logs w ++ [(ERROR, "❌ No se pudo conectar a Odoo")] |},
       inr false)
    else
      let n1 := sent (net w) (auth_request c) in
      let version :=
          match snd (transport (server n1) (version_request c)) with
          | inr a => a
          | inl e => PDict [("error", PStr (exc_str e))]
          end in
      match py_get version "server_serie" (PStr "Unknown") with
      | inl e =>
        ({| odoo_client := Some (set_uid c v);
            net := sent n1 (version_request c);
            logs := logs w |},
         inl e)
      | inr serie =>
        ({| odoo_client := Some (set_uid c v);
            net := sent n1 (version_request c);
            logs := logs w ++ [(INFO, ("✅ Conectado a Odoo " ++ py_str serie)%string)] |},
         inr true)
      end
  end.
Proof.
  unfold configured_client. intros H.
  unfold initialize_odoo, bind, of_result. rewrite H. simpl.
  unfold with_net. simpl. rewrite connect_run.
  destruct (snd (transport (server (net w)) (auth_request c))) as [e | v]; simpl;
    [reflexivity | ].
  destruct (is_False v); simpl; [reflexivity | ].
  rewrite get_version_run. simpl. unfold version_request. simpl.
  match goal with
  | |- context [py_get ?x ?k ?d] => destruct (py_get x k d)
  end; reflexivity.
Qed.

(** The client built from the configuration is bound to the two
    endpoints of the configured URL and holds no session identifier. *)
Lemma configured_client_shape (c : OdooClient) :
  configured_client = inr c ->
  uri (common c) = odoo_url config ++ "/xmlrpc/2/common" /\
  uri (models_endpoint c) = odoo_url config ++ "/xmlrpc/2/object" /\
  db c = odoo_database config /\ username c = odoo_username config /\
  password c = odoo_password config /\ uid c = PNone.
Proof.
  unfold configured_client, OdooClient_init, ServerProxy_new. intros H.
  destruct (supported_protocol (odoo_url config ++ "/xmlrpc/2/common")); [ | discriminate ].
  destruct (supported_protocol (odoo_url config ++ "/xmlrpc/2/object")); [ | discriminate ].
  inversion H. repeat split.
Qed.

(** ** What the branches of [dispatch] leave alone *)

Lemma ksl_ret {A : Type} (a : A) : keeps_session_and_logs (ret a).
Proof. intros w. split; reflexivity. Qed.

Lemma ksl_of_result {A : Type} (r : Result A) : keeps_session_and_logs (of_result r).
Proof. intros w. split; reflexivity. Qed.

Lemma ksl_client_attr (method : string) : keeps_session_and_logs (client_attr method).
Proof.
  intros w. unfold client_attr.
  destruct (odoo_client w) eqn:H; simpl; split; congruence.
Qed.

Lemma ksl_with_net {A : Type} (m : M Net A) : keeps_session_and_logs (with_net m).
Proof. intros w. unfold with_net. destruct (m (net w)). split; reflexivity. Qed.

Lemma ksl_bind {A C : Type} (m : M World A) (k : A -> M World C) :
  keeps_session_and_logs m -> (forall a, keeps_session_and_logs (k a)) ->
  keeps_session_and_logs (bind m k).
Proof.
  intros Hm Hk w. unfold bind. specialize (Hm w).
  destruct (m w) as [w1 [e | a]]; simpl in *.
  - exact Hm.
  - destruct (Hk a w1) as [H1 H2]. destruct Hm as [H3 H4].
    split; congruence.
Qed.

Lemma ksl_if {A : Type} (c : bool) (m1 m2 : M World A) :
  keeps_session_and_logs m1 -> keeps_session_and_logs m2 ->
  keeps_session_and_logs (if c then m1 else m2).
Proof. destruct c; auto. Qed.

Lemma ksl_for_each {A X : Type} (xs : list X) (body : A -> X -> M World A) :
  (forall acc x, keeps_session_and_logs (body acc x)) ->
  forall acc, keeps_session_and_logs (for_each xs body acc).
Proof.
  intros Hbody. induction xs as [ | x rest IH]; intros acc; simpl.
  - apply ksl_ret.
  - apply ksl_bind; [apply Hbody | exact IH].
Qed.

Create HintDb ksl.
#[local] Hint Resolve ksl_ret ksl_of_result ksl_client_attr ksl_with_net ksl_bind
  ksl_if ksl_for_each : ksl.

Lemma ksl_describe_field (result : string) (item : string * PyVal) :
  keeps_session_and_logs (describe_field result item).
Proof.
  destruct item as [field_name field_info]. unfold describe_field.
  repeat (apply ksl_bind; [auto with ksl | intros ]).
  auto 10 with ksl.
Qed.

#[local] Hint Resolve ksl_describe_field : ksl.

Lemma ksl_dispatch (nm : string) (arguments : Dict) :
  keeps_session_and_logs (dispatch nm arguments).
Proof.
  unfold dispatch, tool_list_models, tool_search_records, tool_read_record,
    tool_create_record, tool_update_record, tool_delete_record, tool_get_model_fields.
  repeat (apply ksl_if; [ | ]); try apply ksl_ret;
    repeat (apply ksl_bind; [auto with ksl | intros ]); auto 10 with ksl.
Qed.

(** X6.  A data tool called while a session is held never touches the
    global client, and logs nothing unless its body raises; then it logs
    exactly one error record naming the tool and the exception. *)
Theorem data_tools_keep_session_and_logs :
  forall (nm : string) (arguments : Dict) (w : World),
    nm <> "connect_odoo" ->
    session_missing w = false ->
    odoo_client (fst (call_tool nm arguments w)) = odoo_client w /\
    session_missing (fst (call_tool nm arguments w)) = false /\
    match snd (dispatch nm arguments w) with
    | inr _ => logs (fst (call_tool nm arguments w)) = logs w
    | inl e =>
      logs (fst (call_tool nm arguments w))
      = (logs w ++ [(ERROR, ("Error ejecutando " ++ nm ++ ": " ++ exc_str e)%string)])%list
    end.
Proof.
  intros nm arguments w Hnm Hs.
  rewrite call_tool_run, call_tool_body_live by assumption.
  destruct (ksl_dispatch nm arguments w) as [Hc Hl].
  destruct (dispatch nm arguments w) as [w1 [e | r]]; simpl in *.
  - unfold session_missing in *. simpl. rewrite Hc, Hl. repeat split. exact Hs.
  - unfold session_missing in *. rewrite Hc. repeat split; assumption.
Qed.

(** ** Arguments and remote calls of the data tools *)

Lemma dict_getitem_found (d : Dict) (k : string) (v : PyVal) :
  dict_lookup d k = Some v -> dict_getitem d k = inr v.
Proof. unfold dict_getitem. intros ->. reflexivity. Qed.

Lemma dict_getitem_missing (d : Dict) (k : string) :
  dict_lookup d k = None -> dict_getitem d k = inl (KeyError (PStr k)).
Proof. unfold dict_getitem. intros ->. reflexivity. Qed.

(** A branch whose first missing argument is [k] stops there. *)
Ltac stop_at_missing :=
  repeat match goal with
         | H : dict_lookup ?d ?k = Some ?v |- context [dict_getitem ?d ?k] =>
           rewrite (dict_getitem_found d k v H)
         | H : dict_lookup ?d ?k = None |- context [dict_getitem ?d ?k] =>
           rewrite (dict_getitem_missing d k H)
         end.

Lemma find_tool_none (nm : string) (ts : list Tool) :
  ~ In nm (map name ts) -> find_tool nm ts = None.
Proof.
  induction ts as [ | t rest IH]; simpl; intros H; [reflexivity | ].
  destruct (name t =? nm) eqn:Heq.
  - apply String.eqb_eq in Heq. exfalso. apply H. left. exact Heq.
  - apply IH. intros Hin. apply H. right. exact Hin.
Qed.

Lemma required_of_unknown (nm : string) : ~ In nm tool_names -> required_of nm = [].
Proof.
  intros H. unfold required_of. rewrite (find_tool_none nm tool_catalog H). reflexivity.
Qed.

(** Splits on the arguments a branch looks up, keeping what was found. *)
Ltac split_lookups Hk :=
  cbn [first_missing] in Hk;
  repeat match type of Hk with
         | context [dict_lookup ?d ?key] =>
           let Hl := fresh "Hl" in
           destruct (dict_lookup d key) eqn:Hl; try discriminate Hk
         end.

(** A branch stops at the first required argument it does not find. *)
Lemma dispatch_stops_at_missing :
  forall (w : World) (nm : string) (arguments : Dict) (k : string),
    first_missing (required_of nm) arguments = Some k ->
    dispatch nm arguments w = (w, inl (KeyError (PStr k))).
Proof.
  intros w nm arguments k Hk.
  destruct (in_dec string_dec nm tool_names) as [Hin | Hout];
    [ | rewrite (required_of_unknown nm Hout) in Hk; discriminate Hk ].
  simpl in Hin.
  repeat match type of Hin with
         | _ \/ _ => destruct Hin as [Hin | Hin]
         end;
    try contradiction; subst nm.
  - discriminate Hk.
  - discriminate Hk.
  - change (required_of "search_records") with ["model"] in Hk.
    split_lookups Hk. inversion Hk; subst.
    change (dispatch "search_records" arguments) with (tool_search_records arguments).
    unfold tool_search_records. stop_at_missing. reflexivity.
  - change (required_of "read_record") with ["model"; "record_id"] in Hk.
    split_lookups Hk; inversion Hk; subst;
      change (dispatch "read_record" arguments) with (tool_read_record arguments);
      unfold tool_read_record; stop_at_missing; reflexivity.
  - change (required_of "create_record") with ["model"; "values"] in Hk.
    split_lookups Hk; inversion Hk; subst;
      change (dispatch "create_record" arguments) with (tool_create_record arguments);
      unfold tool_create_record; stop_at_missing; reflexivity.
  - change (required_of "update_record") with ["model"; "record_id"; "values"] in Hk.
    split_lookups Hk; inversion Hk; subst;
      change (dispatch "update_record" arguments) with (tool_update_record arguments);
      unfold tool_update_record; stop_at_missing; reflexivity.
  - change (required_of "delete_record") with ["model"; "record_id"] in Hk.
    split_lookups Hk; inversion Hk; subst;
      change (dispatch "delete_record" arguments) with (tool_delete_record arguments);
      unfold tool_delete_record; stop_at_missing; reflexivity.
  - change (required_of "get_model_fields") with ["model"] in Hk.
    split_lookups Hk. inversion Hk; subst.
    change (dispatch "get_model_fields" arguments) with (tool_get_model_fields arguments).
    unfold tool_get_model_fields. stop_at_missing. reflexivity.
Qed.

(** X7.  The keys each tool reads with [arguments[...]] are the keys its
    advertised schema lists as required, in the same order.  With a
    session held, a call that lacks one of them sends nothing: the answer
    is the error text of the [KeyError] for the first missing key. *)
Theorem missing_required_argument :
  forall (w : World) (nm : string) (arguments : Dict) (k : string),
    session_missing w = false ->
    first_missing (required_of nm) arguments = Some k ->
    call_tool nm arguments w
    = (logged w ERROR ("Error ejecutando " ++ nm ++ ": " ++ exc_str (KeyError (PStr k))),
       inr [text_content (error_text (KeyError (PStr k)))]).
Proof.
  intros w nm arguments k Hs Hk.
  assert (Hnm : nm <> "connect_odoo") by (intros ->; discriminate Hk).
  rewrite call_tool_run, call_tool_body_live by assumption.
  rewrite (dispatch_stops_at_missing w nm arguments k Hk). reflexivity.
Qed.

(** The one request a data tool sends once its arguments are there. *)
Lemma dispatch_sends_one (w : World) (c : OdooClient) (nm : string) (arguments : Dict) :
  odoo_client w = Some c ->
  truthy (uid c) = true ->
  In nm tool_names ->
  nm <> "connect_odoo" ->
  first_missing (required_of nm) arguments = None ->
  exists req,
    methodname req = "execute_kw" /\
    endpoint req = uri (models_endpoint c) /\
    net (fst (dispatch nm arguments w)) = sent (net w) req.
Proof.
  intros Hc Hu Hin Hnm Hk. simpl in Hin.
  repeat match type of Hin with
         | _ \/ _ => destruct Hin as [Hin | Hin]
         end;
    try contradiction; subst nm; try (exfalso; apply Hnm; reflexivity);
    match type of Hk with
    | first_missing (required_of ?x) _ = _ =>
      let r := eval vm_compute in (required_of x) in
      change (required_of x) with r in Hk
    end;
    split_lookups Hk;
    repeat match goal with
           | H : dict_lookup _ _ = Some _ |- _ => apply dict_getitem_found in H
           end.
  - change (dispatch "list_models" arguments) with tool_list_models.
    rewrite (route_list_models w c Hc), list_models_live by exact Hu.
    eexists; (split; [ | split; [ | reflexivity ] ]); reflexivity.
  - change (dispatch "search_records" arguments) with (tool_search_records arguments).
    erewrite route_search_records by eassumption.
    rewrite search_read_live by exact Hu. eexists; (split; [ | split; [ | reflexivity ] ]); reflexivity.
  - change (dispatch "read_record" arguments) with (tool_read_record arguments).
    erewrite route_read_record by eassumption.
    rewrite read_live by exact Hu. eexists; (split; [ | split; [ | reflexivity ] ]); reflexivity.
  - change (dispatch "create_record" arguments) with (tool_create_record arguments).
    erewrite route_create_record by eassumption.
    rewrite create_live by exact Hu. eexists; (split; [ | split; [ | reflexivity ] ]); reflexivity.
  - change (dispatch "update_record" arguments) with (tool_update_record arguments).
    erewrite route_update_record by eassumption.
    rewrite update_live by exact Hu. eexists; (split; [ | split; [ | reflexivity ] ]); reflexivity.
  - change (dispatch "delete_record" arguments) with (tool_delete_record arguments).
    erewrite route_delete_record by eassumption.
    rewrite delete_live by exact Hu. eexists; (split; [ | split; [ | reflexivity ] ]); reflexivity.
  - change (dispatch "get_model_fields" arguments) with (tool_get_model_fields arguments).
    erewrite route_get_model_fields by eassumption.
    rewrite get_fields_live by exact Hu. eexists; (split; [ | split; [ | reflexivity ] ]); reflexivity.
Qed.

(** X8.  With a session held, a data tool of the catalog whose required
    arguments are all there sends exactly one request, an [execute_kw] to
    the object endpoint of the client; it never authenticates again. *)
Theorem data_tool_sends_one_request :
  forall (w : World) (c : OdooClient) (nm : string) (arguments : Dict),
    odoo_client w = Some c ->
    truthy (uid c) = true ->
    In nm tool_names ->
    nm <> "connect_odoo" ->
    first_missing (required_of nm) arguments = None ->
    exists req,
      methodname req = "execute_kw" /\
      endpoint req = uri (models_endpoint c) /\
      calls (net (fst (call_tool nm arguments w))) = (calls (net w) ++ [req])%list /\
      server (net (fst (call_tool nm arguments w)))
      = fst (transport (server (net w)) req).
Proof.
  intros w c nm arguments Hc Hu Hin Hnm Hk.
  destruct (dispatch_sends_one w c nm arguments Hc Hu Hin Hnm Hk) as (req & Hm & He & Hsent).
  exists req. split; [exact Hm | ]. split; [exact He | ].
  rewrite call_tool_live_net by (exact Hnm || exact (live_session w c Hc Hu)).
  rewrite Hsent. split; reflexivity.
Qed.

(** ** Connecting, on request and on demand *)

Lemma connect_odoo_run (arguments : Dict) (w : World) :
  call_tool "connect_odoo" arguments w =
  match initialize_odoo w with
  | (w1, inr true) => (w1, inr [text_content "✅ Conectado exitosamente a Odoo"])
  | (w1, inr false) =>
    (w1, inr [text_content "❌ Error al conectar con Odoo. Verifica las credenciales."])
  | (w1, inl e) =>
    (logged w1 ERROR ("Error ejecutando " ++ "connect_odoo" ++ ": " ++ exc_str e),
     inr [text_content (error_text e)])
  end.
Proof.
  rewrite call_tool_run. unfold call_tool_body. simpl. unfold bind.
  destruct (initialize_odoo w) as [w1 [e | [ | ]]]; reflexivity.
Qed.

(** X9.  The automatic connection is transparent.  When a data tool is
    called without a session and the attempt to connect returns with a
    session identifier in place, the call answers and acts exactly as the
    same call made on the process the attempt left behind. *)
Theorem auto_connect_is_transparent :
  forall (nm : string) (arguments : Dict) (w w1 : World) (b : bool),
    nm <> "connect_odoo" ->
    session_missing w = true ->
    initialize_odoo w = (w1, inr b) ->
    session_missing w1 = false ->
    call_tool nm arguments w = call_tool nm arguments w1.
Proof.
  intros nm arguments w w1 b Hnm Hs Hinit Hs1.
  rewrite !call_tool_run.
  rewrite (call_tool_body_guard nm arguments w Hnm Hs), Hinit, Hs1.
  rewrite (call_tool_body_live nm arguments w1 Hnm Hs1). reflexivity.
Qed.

(** X10.  [connect_odoo] always starts over with a new client.  When the
    [authenticate] request of that client raises or is answered with
    [False], the tool answers with the connection-error text and the
    process is left without a session, also when it held a working one
    before the call. *)
Theorem failed_connect_odoo_discards_session :
  forall (arguments : Dict) (w : World) (c : OdooClient),
    configured_client = inr c ->
    (exists e, snd (transport (server (net w)) (auth_request c)) = inl e) \/
    snd (transport (server (net w)) (auth_request c)) = inr (PBool false) ->
    exists w',
      call_tool "connect_odoo" arguments w
      = (w', inr [text_content "❌ Error al conectar con Odoo. Verifica las credenciales."]) /\
      session_missing w' = true /\
      calls (net w') = (calls (net w) ++ [auth_request c])%list.
Proof.
  intros arguments w c Hc Hfail.
  rewrite connect_odoo_run, (initialize_odoo_run w c Hc).
  destruct (configured_client_shape c Hc) as (_ & _ & _ & _ & _ & Huid).
  destruct Hfail as [[e He] | Hf].
  - rewrite He. eexists. split; [reflexivity | ].
    split; [ | reflexivity ].
    unfold session_missing. simpl. rewrite Huid. reflexivity.
  - rewrite Hf. simpl. eexists. split; [reflexivity | ].
    split; reflexivity.
Qed.

(** X11.  A failing [version] request does not fail the connection.  When
    [authenticate] is answered with anything but [False] and the
    [version] request raises, [connect_odoo] still answers with the
    success text, the client keeps the identifier, and the log names the
    server series as "Unknown". *)
Theorem version_failure_does_not_fail_connect :
  forall (arguments : Dict) (w : World) (c : OdooClient) (s1 s2 : RS) (v : PyVal) (e : Exc),
    configured_client = inr c ->
    transport (server (net w)) (auth_request c) = (s1, inr v) ->
    v <> PBool false ->
    transport s1 (version_request c) = (s2, inl e) ->
    exists w',
      call_tool "connect_odoo" arguments w
      = (w', inr [text_content "✅ Conectado exitosamente a Odoo"]) /\
      odoo_client w' = Some (set_uid c v) /\
      logs w' = (logs w ++ [(INFO, ("✅ Conectado a Odoo " ++ py_str (PStr "Unknown"))%string)])%list /\
      calls (net w') = (calls (net w) ++ [auth_request c; version_request c])%list.
Proof.
  intros arguments w c s1 s2 v e Hc Hauth Hne Hver.
  rewrite connect_odoo_run, (initialize_odoo_run w c Hc), Hauth. simpl.
  apply is_False_false in Hne. rewrite Hne.
  unfold sent at 1. simpl. rewrite Hauth. simpl. rewrite Hver. simpl.
  eexists. split; [reflexivity | ]. split; [reflexivity | ]. split; [reflexivity | ].
  simpl. rewrite <- app_assoc. reflexivity.
Qed.

(** X12.  The success text of [connect_odoo] follows the boolean of
    [connect], not the session check.  When [authenticate] is answered
    with a falsy value other than [False] and the version answer is a
    dictionary, the tool says it connected while the process is left
    without a session. *)
Theorem connect_odoo_success_without_session :
  forall (arguments : Dict) (w : World) (c : OdooClient) (s1 s2 : RS) (v : PyVal) (d : Dict),
    configured_client = inr c ->
    transport (server (net w)) (auth_request c) = (s1, inr v) ->
    v <> PBool false ->
    truthy v = false ->
    transport s1 (version_request c) = (s2, inr (PDict d)) ->
    exists w',
      call_tool "connect_odoo" arguments w
      = (w', inr [text_content "✅ Conectado exitosamente a Odoo"]) /\
      session_missing w' = true.
Proof.
  intros arguments w c s1 s2 v d Hc Hauth Hne Hfalsy Hver.
  rewrite connect_odoo_run, (initialize_odoo_run w c Hc), Hauth. simpl.
  apply is_False_false in Hne. rewrite Hne.
  unfold sent at 1. simpl. rewrite Hauth. simpl. rewrite Hver. simpl.
  eexists. split; [reflexivity | ].
  unfold session_missing. simpl. rewrite Hfalsy. reflexivity.
Qed.

(** X13.  A failed connection is not remembered.  Every data tool called
    while the process has no session and the server cannot be reached
    sends one [authenticate] request of its own, prints one line, logs
    one error record and answers with the not-connected text; the
    process is again without a session afterwards. *)
Theorem each_disconnected_call_retries :
  forall (nm : string) (arguments : Dict) (w : World) (c : OdooClient) (e : Exc),
    nm <> "connect_odoo" ->
    session_missing w = true ->
    configured_client = inr c ->
    snd (transport (server (net w)) (auth_request c)) = inl e ->
    exists w',
      call_tool nm arguments w = (w', inr [text_content not_connected_text]) /\
      session_missing w' = true /\
      calls (net w') = (calls (net w) ++ [auth_request c])%list /\
      stdout (net w') = (stdout (net w) ++ [("Error conectando: " ++ exc_str e)%string])%list /\
      logs w' = (logs w ++ [(ERROR, "❌ No se pudo conectar a Odoo")])%list.
Proof.
  intros nm arguments w c e Hnm Hs Hc He.
  destruct (configured_client_shape c Hc) as (_ & _ & _ & _ & _ & Huid).
  rewrite call_tool_run, (call_tool_body_guard nm arguments w Hnm Hs).
  rewrite (initialize_odoo_run w c Hc), He.
  unfold session_missing at 1. simpl. rewrite Huid. simpl.
  eexists. split; [reflexivity | ].
  split; [unfold session_missing; simpl; rewrite Huid; reflexivity | ].
  repeat split.
Qed.

(** ** What the data tools answer *)

Lemma bind_with_net_inr {A C : Type} (m : M Net A) (k : A -> M World C)
      (w : World) (n' : Net) (a : A) :
  m (net w) = (n', inr a) ->
  bind (with_net m) k w = k a (with_network w n').
Proof. intros H. unfold bind, with_net. rewrite H. reflexivity. Qed.

(** X14.  [search_records] with a session held, when the server answers
    its [search_read] with a list: an empty list gives the no-records
    text; otherwise the text gives the number of records returned, the
    model as the caller wrote it, and the whole list as JSON.  The tool
    sends nothing else and changes nothing but the client layer. *)
Theorem search_records_answer :
  forall (w : World) (c : OdooClient) (arguments : Dict) (model : PyVal)
         (n' : Net) (l : list PyVal),
    odoo_client w = Some c ->
    truthy (uid c) = true ->
    dict_lookup arguments "model" = Some model ->
    search_read c model (dict_get arguments "domain" (PList []))
                (dict_get arguments "fields" (PList []))
                (dict_get arguments "limit" (PInt 10)) (net w) = (n', inr (PList l)) ->
    call_tool "search_records" arguments w
    = (with_network w n',
       inr [text_content
              match l with
              | [] => "No se encontraron registros"
              | _ :: _ =>
                ("🔍 Encontrados " ++ py_str (PInt (Z.of_nat (length l)))
                   ++ " registros en " ++ py_str model ++ ":" ++ nl)
                  ++ json_dumps (PList l)
              end]).
Proof.
  intros w c arguments model n' l Hc Hu Hm Hsr.
  rewrite call_tool_run, call_tool_body_live
    by (discriminate || exact (live_session w c Hc Hu)).
  change (dispatch "search_records" arguments) with (tool_search_records arguments).
  unfold tool_search_records.
  rewrite (bind_of_result _ model) by (apply dict_getitem_found; exact Hm).
  rewrite (bind_client_attr _ c) by exact Hc.
  rewrite (bind_with_net_inr _ _ _ _ _ Hsr).
  destruct l as [ | r rest]; reflexivity.
Qed.

(** X15.  [read_record] asks for the one identifier it was given.  When
    the server answers with an empty list the text says the record was
    not found; otherwise the text shows the first record of the answer
    and ignores any further ones. *)
Theorem read_record_answer :
  forall (w : World) (c : OdooClient) (arguments : Dict) (model record_id : PyVal)
         (n' : Net) (l : list PyVal),
    odoo_client w = Some c ->
    truthy (uid c) = true ->
    dict_lookup arguments "model" = Some model ->
    dict_lookup arguments "record_id" = Some record_id ->
    read c model (PList [record_id]) (dict_get arguments "fields" (PList [])) (net w)
    = (n', inr (PList l)) ->
    call_tool "read_record" arguments w
    = (with_network w n',
       inr [text_content
              match l with
              | [] => "No se encontró el registro con ID " ++ py_str record_id
              | first :: _ =>
                ("📖 Registro " ++ py_str model ++ "/" ++ py_str record_id ++ ":" ++ nl)
                  ++ json_dumps first
              end]).
Proof.
  intros w c arguments model record_id n' l Hc Hu Hm Hr Hread.
  rewrite call_tool_run, call_tool_body_live
    by (discriminate || exact (live_session w c Hc Hu)).
  change (dispatch "read_record" arguments) with (tool_read_record arguments).
  unfold tool_read_record.
  rewrite (bind_of_result _ model) by (apply dict_getitem_found; exact Hm).
  rewrite (bind_of_result _ record_id) by (apply dict_getitem_found; exact Hr).
  rewrite (bind_client_attr _ c) by exact Hc.
  rewrite (bind_with_net_inr _ _ _ _ _ Hread).
  destruct l as [ | r rest]; reflexivity.
Qed.

(** X16.  [update_record] and [delete_record] decide their text by the
    truth value of what the server answers: a truthy answer gives the
    success text, a falsy one ([False], 0, [None], an empty list) gives
    the tool's own error text, without any exception and without a log
    record. *)
Theorem update_and_delete_answer_by_truthiness :
  forall (w : World) (c : OdooClient) (arguments : Dict) (model record_id : PyVal),
    odoo_client w = Some c ->
    truthy (uid c) = true ->
    dict_lookup arguments "model" = Some model ->
    dict_lookup arguments "record_id" = Some record_id ->
    (forall values n' v,
        dict_lookup arguments "values" = Some values ->
        update c model (PList [record_id]) values (net w) = (n', inr v) ->
        call_tool "update_record" arguments w
        = (with_network w n',
           inr [text_content
                  (if truthy v
                   then "✅ Registro " ++ py_str model ++ "/" ++ py_str record_id
                          ++ " actualizado exitosamente!"
                   else "❌ Error al actualizar el registro "
                          ++ py_str model ++ "/" ++ py_str record_id)])) /\
    (forall n' v,
        delete c model (PList [record_id]) (net w) = (n', inr v) ->
        call_tool "delete_record" arguments w
        = (with_network w n',
           inr [text_content
                  (if truthy v
                   then "🗑️ Registro " ++ py_str model ++ "/" ++ py_str record_id
                          ++ " eliminado exitosamente"
                   else "❌ Error al eliminar el registro "
                          ++ py_str model ++ "/" ++ py_str record_id)])).
Proof.
  intros w c arguments model record_id Hc Hu Hm Hr. split.
  - intros values n' v Hv Hup.
    rewrite call_tool_run, call_tool_body_live
      by (discriminate || exact (live_session w c Hc Hu)).
    change (dispatch "update_record" arguments) with (tool_update_record arguments).
    unfold tool_update_record.
    rewrite (bind_of_result _ model) by (apply dict_getitem_found; exact Hm).
    rewrite (bind_of_result _ record_id) by (apply dict_getitem_found; exact Hr).
    rewrite (bind_of_result _ values) by (apply dict_getitem_found; exact Hv).
    rewrite (bind_client_attr _ c) by exact Hc.
    rewrite (bind_with_net_inr _ _ _ _ _ Hup).
    destruct (truthy v); reflexivity.
  - intros n' v Hdel.
    rewrite call_tool_run, call_tool_body_live
      by (discriminate || exact (live_session w c Hc Hu)).
    change (dispatch "delete_record" arguments) with (tool_delete_record arguments).
    unfold tool_delete_record.
    rewrite (bind_of_result _ model) by (apply dict_getitem_found; exact Hm).
    rewrite (bind_of_result _ record_id) by (apply dict_getitem_found; exact Hr).
    rewrite (bind_client_attr _ c) by exact Hc.
    rewrite (bind_with_net_inr _ _ _ _ _ Hdel).
    destruct (truthy v); reflexivity.
Qed.

(** X17.  [create_record] does not look at what the server answers: any
    answer that is not an exception, [False] or [None] included, is
    reported as a successful creation with that answer printed as the
    new identifier. *)
Theorem create_record_reports_any_answer :
  forall (w : World) (c : OdooClient) (arguments : Dict) (model values : PyVal)
         (n' : Net) (v : PyVal),
    odoo_client w = Some c ->
    truthy (uid c) = true ->
    dict_lookup arguments "model" = Some model ->
    dict_lookup arguments "values" = Some values ->
    create c model values (net w) = (n', inr v) ->
    call_tool "create_record" arguments w
    = (with_network w n',
       inr [text_content ("✅ Registro creado exitosamente!" ++ nl
                            ++ "📋 Modelo: " ++ py_str model ++ nl
                            ++ "🆔 ID: " ++ py_str v)]).
Proof.
  intros w c arguments model values n' v Hc Hu Hm Hv Hcreate.
  rewrite call_tool_run, call_tool_body_live
    by (discriminate || exact (live_session w c Hc Hu)).
  change (dispatch "create_record" arguments) with (tool_create_record arguments).
  unfold tool_create_record.
  rewrite (bind_of_result _ model) by (apply dict_getitem_found; exact Hm).
  rewrite (bind_of_result _ values) by (apply dict_getitem_found; exact Hv).
  rewrite (bind_client_attr _ c) by exact Hc.
  rewrite (bind_with_net_inr _ _ _ _ _ Hcreate).
  reflexivity.
Qed.

(** ** The listings of [list_models] and [get_model_fields] *)

Lemma model_entries_of_pairs (l : list PyVal) (pairs : list (PyVal * PyVal)) :
  Forall2 (fun m p => py_getitem m "model" = inr (fst p) /\
                      py_getitem m "name" = inr (snd p)) l pairs ->
  model_entries l
  = inr (map (fun p => PDict [("model", fst p); ("name", snd p)]) pairs).
Proof.
  induction 1 as [ | m p l pairs [Hmo Hna] _ IH]; simpl.
  - reflexivity.
  - unfold model_entry. rewrite Hmo, Hna, IH. reflexivity.
Qed.

Lemma listing_run (pairs : list (PyVal * PyVal)) :
  forall (acc : string) (w : World),
    for_each (map (fun p => PDict [("model", fst p); ("name", snd p)]) pairs)
      (fun result m =>
         mo <- of_result (py_getitem m "model") ;;
         na <- of_result (py_getitem m "name") ;;
         ret (result ++ "  • " ++ py_str mo ++ ": " ++ py_str na ++ nl))
      acc w = (w, inr (listing acc pairs)).
Proof.
  induction pairs as [ | p rest IH]; intros acc w.
  - reflexivity.
  - cbn [map for_each].
    erewrite bind_inr; [apply IH | reflexivity].
Qed.

(** X18.  The answer of the [list_models] tool, when the server answers
    with a list of records that all hold [model] and [name]: one line per
    record for the first twenty records only, in the order of the
    server, followed by a footer that always says that 20 are shown and
    gives the number of records the server returned. *)
Theorem list_models_tool_answer :
  forall (w : World) (c : OdooClient) (arguments : Dict) (s' : RS)
         (l : list PyVal) (pairs : list (PyVal * PyVal)),
    odoo_client w = Some c ->
    truthy (uid c) = true ->
    transport (server (net w)) (list_models_request c) = (s', inr (PList l)) ->
    Forall2 (fun m p => py_getitem m "model" = inr (fst p) /\
                        py_getitem m "name" = inr (snd p)) l pairs ->
    call_tool "list_models" arguments w
    = (with_network w (sent (net w) (list_models_request c)),
       inr [text_content
              (listing ("📋 Modelos disponibles:" ++ nl) (firstn 20 pairs)
                 ++ nl ++ "(Mostrando 20 de "
                 ++ py_str (PInt (Z.of_nat (length l))) ++ " modelos)")]).
Proof.
  intros w c arguments s' l pairs Hc Hu Ht Hpairs.
  rewrite call_tool_run, call_tool_body_live
    by (discriminate || exact (live_session w c Hc Hu)).
  change (dispatch "list_models" arguments) with tool_list_models.
  unfold tool_list_models.
  rewrite (bind_client_attr _ c) by exact Hc.
  assert (Hlm : list_models c (net w)
                = (sent (net w) (list_models_request c),
                   inr (map (fun p => PDict [("model", fst p); ("name", snd p)]) pairs))).
  { rewrite list_models_live by exact Hu. rewrite Ht. simpl.
    rewrite (model_entries_of_pairs l pairs Hpairs). reflexivity. }
  rewrite (bind_with_net_inr _ _ _ _ _ Hlm).
  rewrite firstn_map.
  erewrite bind_inr; [ | apply listing_run ].
  rewrite length_map, <- (Forall2_length Hpairs). reflexivity.
Qed.

Lemma pure_ret {A : Type} (a : A) : pure_in (ret a).
Proof. exists (inr a). intros w. reflexivity. Qed.

Lemma pure_of_result {A : Type} (r : Result A) : pure_in (of_result r).
Proof. exists r. intros w. reflexivity. Qed.

Lemma pure_bind {A C : Type} (m : M World A) (k : A -> M World C) :
  pure_in m -> (forall a, pure_in (k a)) -> pure_in (bind m k).
Proof.
  intros [r Hr] Hk. destruct r as [e | a].
  - exists (inl e). intros w. unfold bind. rewrite Hr. reflexivity.
  - destruct (Hk a) as [r' Hr']. exists r'. intros w. unfold bind. rewrite Hr. apply Hr'.
Qed.

Lemma pure_if {A : Type} (c : bool) (m1 m2 : M World A) :
  pure_in m1 -> pure_in m2 -> pure_in (if c then m1 else m2).
Proof. destruct c; auto. Qed.

Lemma pure_for_each {A X : Type} (xs : list X) (body : A -> X -> M World A) :
  (forall acc x, pure_in (body acc x)) ->
  forall acc, pure_in (for_each xs body acc).
Proof.
  intros Hbody. induction xs as [ | x rest IH]; intros acc; simpl.
  - apply pure_ret.
  - apply pure_bind; [apply Hbody | exact IH].
Qed.

Lemma pure_describe_field (result : string) (item : string * PyVal) :
  pure_in (describe_field result item).
Proof.
  destruct item as [field_name field_info]. unfold describe_field.
  repeat (apply pure_bind; [apply pure_of_result | intros ]).
  apply pure_if; [ | apply pure_ret ].
  repeat (apply pure_bind; [apply pure_of_result | intros ]).
  apply pure_ret.
Qed.

(** X19.  [get_model_fields] reads the first fifteen fields of the answer
    and nothing after them: for a given model and given first fifteen
    fields, the answer of the tool is one fixed text, whatever follows
    in the dictionary, be it further fields or entries that are not
    field descriptions at all. *)
Theorem get_model_fields_reads_first_15 :
  forall (arguments : Dict) (model : PyVal) (d : Dict),
    dict_lookup arguments "model" = Some model ->
    length d = 15 ->
    exists answer : string,
    forall (w : World) (c : OdooClient) (n' : Net) (more : Dict),
      odoo_client w = Some c ->
      truthy (uid c) = true ->
      get_fields c model (net w) = (n', inr (PDict (d ++ more))) ->
      snd (call_tool "get_model_fields" arguments w) = inr [text_content answer].
Proof.
  intros arguments model d Hm Hlen.
  destruct (pure_for_each d describe_field pure_describe_field
              ("📊 Campos del modelo " ++ py_str model ++ ":" ++ nl)) as [r Hr].
  exists (match r with inr t => t | inl e => error_text e end).
  intros w c n' more Hc Hu Hget.
  rewrite call_tool_run, call_tool_body_live
    by (discriminate || exact (live_session w c Hc Hu)).
  change (dispatch "get_model_fields" arguments) with (tool_get_model_fields arguments).
  unfold tool_get_model_fields.
  rewrite (bind_of_result _ model) by (apply dict_getitem_found; exact Hm).
  rewrite (bind_client_attr _ c) by exact Hc.
  rewrite (bind_with_net_inr _ _ _ _ _ Hget).
  rewrite (bind_of_result _ (d ++ more)%list) by reflexivity.
  assert (Hcut : firstn 15 (d ++ more) = d).
  { rewrite <- Hlen, firstn_app, firstn_all, Nat.sub_diag. simpl. apply app_nil_r. }
  rewrite Hcut. unfold bind. rewrite Hr.
  destruct r; reflexivity.
Qed.

(** ** Invariants of the process over any number of calls *)

(** With a session held, a branch of [dispatch] sends at most one
    request, to the object endpoint of the client. *)
Lemma dispatch_calls (w : World) (c : OdooClient) (nm : string) (arguments : Dict) :
  odoo_client w = Some c ->
  truthy (uid c) = true ->
  net (fst (dispatch nm arguments w)) = net w \/
  exists req,
    methodname req = "execute_kw" /\
    endpoint req = uri (models_endpoint c) /\
    net (fst (dispatch nm arguments w)) = sent (net w) req.
Proof.
  intros Hc Hu.
  destruct (in_dec string_dec nm tool_names) as [Hin | Hout].
  - destruct (string_dec nm "connect_odoo") as [-> | Hnm]; [left; reflexivity | ].
    destruct (first_missing (required_of nm) arguments) as [k | ] eqn:Hk.
    + left. rewrite (dispatch_stops_at_missing w nm arguments k Hk). reflexivity.
    + right. apply dispatch_sends_one; assumption.
  - left. destruct (unknown_tool_dispatch nm arguments w Hout) as [_ Hd].
    rewrite Hd. reflexivity.
Qed.

Lemma call_tool_client (nm : string) (arguments : Dict) (w : World) :
  odoo_client (fst (call_tool nm arguments w))
  = odoo_client (fst (call_tool_body nm arguments w)).
Proof.
  rewrite call_tool_run.
  destruct (call_tool_body nm arguments w) as [w1 [e | r]]; reflexivity.
Qed.

Lemma connect_odoo_body (arguments : Dict) (w : World) :
  fst (call_tool_body "connect_odoo" arguments w) = fst (initialize_odoo w).
Proof.
  unfold call_tool_body. simpl. unfold bind.
  destruct (initialize_odoo w) as [w1 [e | [ | ]]]; reflexivity.
Qed.

Lemma set_uid_same (c : OdooClient) : set_uid c (uid c) = c.
Proof. destruct c. reflexivity. Qed.

Lemma set_uid_twice (c : OdooClient) (u v : PyVal) : set_uid (set_uid c u) v = set_uid c v.
Proof. reflexivity. Qed.

(** What one run of [initialize_odoo] does to the global client and to
    the record of calls. *)
Lemma initialize_odoo_effect (w : World) :
  configured_world w ->
  configured_world (fst (initialize_odoo w)) /\
  exists extra,
    calls (net (fst (initialize_odoo w))) = (calls (net w) ++ extra)%list /\
    Forall configured_endpoint extra /\
    Forall (fun req => methodname req <> "execute_kw") extra.
Proof.
  intros Hw. destruct configured_client as [e | c] eqn:Hc.
  - rewrite (initialize_odoo_unbuilt w e Hc). simpl.
    split; [exact Hw | ]. exists []. rewrite app_nil_r. repeat split; constructor.
  - rewrite (initialize_odoo_run w c Hc).
    destruct (configured_client_shape c Hc) as (Hcommon & _).
    assert (Hauth : configured_endpoint (auth_request c)) by (left; exact Hcommon).
    assert (Hver : configured_endpoint (version_request c)) by (left; exact Hcommon).
    assert (Hfrom : forall v, from_config (set_uid c v))
      by (intros v; exists c; split; [exact Hc | exists v; reflexivity]).
    destruct (snd (transport (server (net w)) (auth_request c))) as [e | v]; simpl.
    + split.
      * intros c' Hc'. simpl in Hc'. inversion Hc'; subst c'.
        rewrite <- (set_uid_same c). apply Hfrom.
      * exists [auth_request c]. split; [reflexivity | ].
        split; (constructor; [first [exact Hauth | discriminate] | constructor]).
    + destruct (is_False v); simpl.
      * split.
        -- intros c' Hc'. simpl in Hc'. inversion Hc'; subst c'. apply Hfrom.
        -- exists [auth_request c]. split; [reflexivity | ].
           split; (constructor; [first [exact Hauth | discriminate] | constructor]).
      * match goal with
        | |- context [py_get ?x ?k ?d] => destruct (py_get x k d)
        end; simpl;
          (split;
           [ intros c' Hc'; simpl in Hc'; inversion Hc'; subst c'; apply Hfrom
           | exists [auth_request c; version_request c];
             split; [rewrite <- app_assoc; reflexivity | ];
             split;
             (constructor;
              [ first [exact Hauth | discriminate]
              | constructor; [first [exact Hver | discriminate] | constructor] ]) ]).
Qed.

Lemma configured_world_same (w w' : World) :
  odoo_client w' = odoo_client w -> configured_world w -> configured_world w'.
Proof. intros H Hw c Hc. apply Hw. rewrite <- H. exact Hc. Qed.

Lemma dispatch_effect (w : World) (nm : string) (arguments : Dict) :
  configured_world w ->
  session_missing w = false ->
  configured_world (fst (dispatch nm arguments w)) /\
  exists extra,
    calls (net (fst (dispatch nm arguments w))) = (calls (net w) ++ extra)%list /\
    Forall configured_endpoint extra.
Proof.
  intros Hw Hs. split.
  - apply (configured_world_same w); [ | exact Hw ].
    apply (ksl_dispatch nm arguments w).
  - unfold session_missing in Hs.
    destruct (odoo_client w) as [c | ] eqn:Hc; [ | discriminate ].
    assert (Hu : truthy (uid c) = true) by (destruct (truthy (uid c)); [reflexivity | discriminate]).
    destruct (dispatch_calls w c nm arguments Hc Hu) as [Hsame | (req & _ & Hep & Hsent)].
    + exists []. rewrite Hsame, app_nil_r. split; constructor.
    + exists [req]. rewrite Hsent. split; [reflexivity | ].
      constructor; [ | constructor ].
      destruct (Hw c Hc) as (c0 & Hc0 & v & ->).
      destruct (configured_client_shape c0 Hc0) as (_ & Hobject & _).
      right. rewrite Hep. exact Hobject.
Qed.

Lemma call_tool_effect (nm : string) (arguments : Dict) (w : World) :
  configured_world w ->
  configured_world (fst (call_tool nm arguments w)) /\
  exists extra,
    calls (net (fst (call_tool nm arguments w))) = (calls (net w) ++ extra)%list /\
    Forall configured_endpoint extra.
Proof.
  intros Hw.
  assert (Hbody : configured_world (fst (call_tool_body nm arguments w)) /\
                  exists extra,
                    calls (net (fst (call_tool_body nm arguments w)))
                    = (calls (net w) ++ extra)%list /\
                    Forall configured_endpoint extra).
  { destruct (string_dec nm "connect_odoo") as [-> | Hnm].
    - rewrite connect_odoo_body.
      destruct (initialize_odoo_effect w Hw) as (H1 & extra & H2 & H3 & _).
      split; [exact H1 | exists extra; split; assumption].
    - destruct (session_missing w) eqn:Hs.
      + rewrite (call_tool_body_guard nm arguments w Hnm Hs).
        destruct (initialize_odoo_effect w Hw) as (H1 & extra & H2 & H3 & _).
        destruct (initialize_odoo w) as [w1 [e | b]]; simpl in *.
        * split; [exact H1 | exists extra; split; assumption].
        * destruct (session_missing w1) eqn:Hs1; simpl.
          -- split; [exact H1 | exists extra; split; assumption].
          -- destruct (dispatch_effect w1 nm arguments H1 Hs1) as (H4 & extra' & H5 & H6).
             split; [exact H4 | ].
             exists (extra ++ extra')%list. rewrite H5, H2, app_assoc.
             split; [reflexivity | apply Forall_app; split; assumption].
      + rewrite (call_tool_body_live nm arguments w Hnm Hs).
        apply dispatch_effect; assumption. }
  destruct Hbody as (H1 & extra & H2 & H3). split.
  - apply (configured_world_same (fst (call_tool_body nm arguments w))); [ | exact H1 ].
    apply call_tool_client.
  - exists extra. rewrite call_tool_net. split; assumption.
Qed.

Lemma call_tool_answers (nm : string) (arguments : Dict) (w : World) :
  exists t, snd (call_tool nm arguments w) = inr [text_content t].
Proof.
  rewrite call_tool_run.
  destruct (call_tool_body nm arguments w) as [w1 [e | r]] eqn:Hbody; simpl.
  - eexists. reflexivity.
  - destruct (call_tool_body_single _ _ _ _ _ Hbody) as [t ->]. exists t. reflexivity.
Qed.

(** X20.  However many tool calls are served, and whatever their names
    and arguments, serving never raises, gives one answer per call, and
    every request the process sends goes to one of the two endpoints of
    the configured URL. *)
Theorem only_configured_endpoints :
  forall (requests : list (string * Dict)) (w : World),
    configured_world w ->
    exists (w' : World) (answers : list (list TextContent)) (extra : list Request),
      call_tools requests w = (w', inr answers) /\
      length answers = length requests /\
      configured_world w' /\
      calls (net w') = (calls (net w) ++ extra)%list /\
      Forall configured_endpoint extra.
Proof.
  induction requests as [ | [nm arguments] rest IH]; intros w Hw.
  - exists w, [], []. simpl. rewrite app_nil_r. repeat split; [exact Hw | constructor].
  - destruct (call_tool_effect nm arguments w Hw) as (H1 & extra1 & H2 & H3).
    destruct (call_tool_answers nm arguments w) as [t Ht].
    destruct (call_tool nm arguments w) as [w1 r1] eqn:Hcall. simpl in *. subst r1.
    destruct (IH w1 H1) as (w' & answers & extra2 & Hrun & Hlen & Hw' & Hcalls & Hall).
    exists w', ([text_content t] :: answers), (extra1 ++ extra2)%list.
    split.
    + unfold bind. rewrite Hcall, Hrun. reflexivity.
    + split; [simpl; rewrite Hlen; reflexivity | ].
      split; [exact Hw' | ].
      split; [rewrite Hcalls, H2, app_assoc; reflexivity | ].
      apply Forall_app. split; assumption.
Qed.

(** X21.  Once a session is held it is never renewed by the data tools:
    over any sequence of calls that does not name [connect_odoo], the
    global client stays the same object, at most one request is sent per
    call, and every request sent is an [execute_kw]. *)
Theorem session_is_reused :
  forall (requests : list (string * Dict)) (w : World),
    session_missing w = false ->
    Forall (fun request => fst request <> "connect_odoo") requests ->
    exists (w' : World) (answers : list (list TextContent)) (extra : list Request),
      call_tools requests w = (w', inr answers) /\
      odoo_client w' = odoo_client w /\
      calls (net w') = (calls (net w) ++ extra)%list /\
      length extra <= length requests /\
      Forall (fun req => methodname req = "execute_kw") extra.
Proof.
  induction requests as [ | [nm arguments] rest IH]; intros w Hs Hnames.
  - exists w, [], []. simpl. rewrite app_nil_r. repeat split; constructor.
  - inversion Hnames as [ | ? ? Hnm Hrest]; subst. simpl in Hnm.
    assert (Hstep : odoo_client (fst (call_tool nm arguments w)) = odoo_client w /\
                    exists extra1,
                      calls (net (fst (call_tool nm arguments w)))
                      = (calls (net w) ++ extra1)%list /\
                      length extra1 <= 1 /\
                      Forall (fun req => methodname req = "execute_kw") extra1).
    { rewrite call_tool_client, call_tool_net, call_tool_body_live by assumption.
      split; [apply (ksl_dispatch nm arguments w) | ].
      unfold session_missing in Hs.
      destruct (odoo_client w) as [c | ] eqn:Hc; [ | discriminate ].
      assert (Hu : truthy (uid c) = true)
        by (destruct (truthy (uid c)); [reflexivity | discriminate]).
      destruct (dispatch_calls w c nm arguments Hc Hu) as [Hsame | (req & Hm & _ & Hsent)].
      - exists []. rewrite Hsame, app_nil_r. repeat split; [simpl; lia | constructor].
      - exists [req]. rewrite Hsent. repeat split; [simpl; lia | ].
        constructor; [exact Hm | constructor]. }
    destruct Hstep as (Hclient & extra1 & Hcalls1 & Hlen1 & Hall1).
    destruct (call_tool_answers nm arguments w) as [t Ht].
    destruct (call_tool nm arguments w) as [w1 r1] eqn:Hcall. simpl in *. subst r1.
    assert (Hs1 : session_missing w1 = false)
      by (unfold session_missing in *; rewrite Hclient; exact Hs).
    destruct (IH w1 Hs1 Hrest) as (w' & answers & extra2 & Hrun & Hc' & Hcalls2 & Hlen2 & Hall2).
    exists w', ([text_content t] :: answers), (extra1 ++ extra2)%list.
    split; [unfold bind; rewrite Hcall, Hrun; reflexivity | ].
    split; [congruence | ].
    split; [rewrite Hcalls2, Hcalls1, app_assoc; reflexivity | ].
    split; [rewrite length_app; lia | ].
    apply Forall_app. split; assumption.
Qed.

(** ** Start-up *)

(** X22.  [main] runs [initialize_odoo] outside any [try].  A server that
    cannot be reached or that rejects the credentials does not stop the
    start-up: the MCP server is started, without a session.  An exception
    raised by [initialize_odoo] itself, as for a configured URL whose
    scheme [ServerProxy] does not support, ends [main] before the MCP
    server is started. *)
Theorem main_startup :
  forall (run_server : M World unit) (w : World),
    let started :=
        logged w INFO ("🚀 Iniciando " ++ mcp_name config ++ " v" ++ mcp_version config) in
    (forall e, configured_client = inl e -> main run_server w = (started, inl e)) /\
    (forall w1 e, initialize_odoo started = (w1, inl e) -> main run_server w = (w1, inl e)) /\
    (forall c,
        configured_client = inr c ->
        (exists e, snd (transport (server (net w)) (auth_request c)) = inl e) \/
        snd (transport (server (net w)) (auth_request c)) = inr (PBool false) ->
        exists w1,
          main run_server w = run_server w1 /\
          session_missing w1 = true /\
          logs w1 = (logs started ++ [(ERROR, "❌ No se pudo conectar a Odoo")])%list).
Proof.
  intros run_server w started.
  assert (Hmain : main run_server w =
                  match initialize_odoo started with
                  | (w1, inr _) => run_server w1
                  | (w1, inl e) => (w1, inl e)
                  end).
  { change (main run_server w) with (bind initialize_odoo (fun _ => run_server) started).
    unfold bind. destruct (initialize_odoo started) as [w1 [e | b]]; reflexivity. }
  split; [ | split ].
  - intros e He. rewrite Hmain, (initialize_odoo_unbuilt started e He). reflexivity.
  - intros w1 e He. rewrite Hmain, He. reflexivity.
  - intros c Hc Hfail. rewrite Hmain, (initialize_odoo_run started c Hc).
    destruct (configured_client_shape c Hc) as (_ & _ & _ & _ & _ & Huid).
    change (net started) with (net w).
    destruct Hfail as [[e He] | Hf].
    + rewrite He. eexists. split; [reflexivity | ].
      split; [unfold session_missing; simpl; rewrite Huid; reflexivity | reflexivity].
    + rewrite Hf. simpl. eexists. split; [reflexivity | ].
      split; reflexivity.
Qed.

End Behaviour.

(** * The further behaviour at work on the sample environment *)

(** X1 at work: no session, nobody listening. *)
Lemma get_version_witness :
  snd (@get_version offline demo_client (fresh_net offline empty_store))
  = inr (PDict [("error", PStr "[Errno 111] Connection refused")]).
Proof.
  destruct (@get_version_needs_no_session offline demo_client (fresh_net offline empty_store))
    as (v & Hrun & _ & Herr).
  rewrite Hrun. simpl.
  rewrite (Herr empty_store (OSError "[Errno 111] Connection refused") eq_refl).
  reflexivity.
Defined.

(** X2 at work: the server answers [authenticate] with 0. *)
Lemma connect_true_without_session_witness :
  exists n' self',
    @connect zero_uid demo_client (fresh_net zero_uid empty_store) = (n', inr (self', true)) /\
    @list_models zero_uid self' n' = (n', inl not_connected) /\
    @get_fields zero_uid self' (PStr "res.partner") (fresh_net zero_uid two_partners)
    = (fresh_net zero_uid two_partners, inl not_connected).
Proof.
  destruct (@connect_true_without_session zero_uid demo_client
              (fresh_net zero_uid empty_store) empty_store (PInt 0) eq_refl)
    as (n' & self' & Hrun & _ & Hraise).
  - discriminate.
  - reflexivity.
  - exists n', self'. split; [exact Hrun | ]. split.
    + apply (Hraise n').
    + apply (Hraise (fresh_net zero_uid two_partners)).
Defined.

(** X3 at work: the password was changed on the server. *)
Lemma rejected_connect_witness :
  truthy (uid stale_session) = true /\
  exists n' self',
    @connect demo stale_session (fresh_net demo empty_store) = (n', inr (self', false)) /\
    uid self' = PBool false /\
    @update demo self' (PStr "res.partner") (PList [PInt 1]) (PDict [])
            (fresh_net demo two_partners)
    = (fresh_net demo two_partners, inl not_connected).
Proof.
  split; [reflexivity | ].
  destruct (@rejected_connect_clears_session demo stale_session
              (fresh_net demo empty_store) empty_store eq_refl)
    as (n' & self' & Hrun & Huid & _ & Hraise).
  exists n', self'. split; [exact Hrun | ]. split; [exact Huid | ].
  apply (Hraise (fresh_net demo two_partners)).
Defined.

(** X4 at work: [False] as a domain, and a real one. *)
Lemma falsy_domain_witness :
  @search demo demo_session (PStr "res.partner") (PBool false) default_limit
          (fresh_net demo two_partners)
  = @search demo demo_session (PStr "res.partner") (PList []) default_limit
            (fresh_net demo two_partners) /\
  exists kw,
    calls (fst (@search_read demo demo_session (PStr "res.partner")
                             (PList [PList [PStr "name"; PStr "="; PStr "Ada"]])
                             default_fields (PInt 5) (fresh_net demo two_partners)))
    = [ {| endpoint := "http://localhost:8069/xmlrpc/2/object";
           methodname := "execute_kw";
           params := [PStr "demo"; PInt 2; PStr "admin"; PStr "res.partner";
                      PStr "search_read";
                      PList [PList [PList [PStr "name"; PStr "="; PStr "Ada"]]];
                      kw] |} ].
Proof.
  split.
  - destruct (@falsy_domain_is_empty_domain demo demo_session (PStr "res.partner")
                (PBool false) default_fields default_limit (fresh_net demo two_partners))
      as [Hfalsy _].
    exact (proj1 (Hfalsy eq_refl)).
  - destruct (@falsy_domain_is_empty_domain demo demo_session (PStr "res.partner")
                (PList [PList [PStr "name"; PStr "="; PStr "Ada"]])
                default_fields (PInt 5) (fresh_net demo two_partners))
      as [_ Htruthy].
    destruct (Htruthy eq_refl eq_refl) as [_ Hsr].
    eexists. rewrite Hsr. reflexivity.
Defined.

(** X5 at work: two models, both with a name. *)
Lemma list_models_all_or_nothing_witness :
  snd (@list_models two_models demo_session (fresh_net two_models empty_store))
  = inr [PDict [("model", PStr "res.partner"); ("name", PStr "Contact")];
         PDict [("model", PStr "res.users"); ("name", PStr "User")]].
Proof.
  destruct (@list_models_all_or_nothing two_models demo_session
              (fresh_net two_models empty_store) empty_store _ eq_refl eq_refl)
    as [[_ Hall] _].
  destruct Hall as [xs Hxs].
  - repeat constructor; eexists _, _; split; reflexivity.
  - reflexivity.
Defined.

(** X6 at work: a call that raises leaves one log record. *)
Lemma data_tools_keep_session_witness :
  odoo_client (fst (@call_tool demo "read_record" [] (live_world demo empty_store)))
  = Some demo_session /\
  logs (fst (@call_tool demo "read_record" [] (live_world demo empty_store)))
  = [(ERROR, "Error ejecutando read_record: 'model'")].
Proof.
  destruct (@data_tools_keep_session_and_logs demo "read_record" []
              (live_world demo empty_store)) as (Hc & _ & Hl).
  - discriminate.
  - reflexivity.
  - split; [exact Hc | exact Hl].
Defined.

(** X7 at work: [update_record] without its [values]. *)
Lemma missing_required_argument_witness :
  snd (@call_tool demo "update_record"
                  [("model", PStr "res.partner"); ("record_id", PInt 1)]
                  (live_world demo two_partners))
  = inr [text_content "❌ Error: 'values'"].
Proof.
  rewrite (@missing_required_argument demo (live_world demo two_partners) "update_record"
             [("model", PStr "res.partner"); ("record_id", PInt 1)] "values"
             eq_refl eq_refl).
  reflexivity.
Defined.

(** X8 at work: [read_record] with all it needs. *)
Lemma data_tool_sends_one_request_witness :
  exists req,
    calls (net (fst (@call_tool demo "read_record"
                                [("model", PStr "res.partner"); ("record_id", PInt 1)]
                                (live_world demo two_partners)))) = [req] /\
    methodname req = "execute_kw".
Proof.
  destruct (@data_tool_sends_one_request demo (live_world demo two_partners) demo_session
              "read_record" [("model", PStr "res.partner"); ("record_id", PInt 1)]
              eq_refl eq_refl) as (req & Hm & _ & Hcalls & _).
  - simpl. auto 10.
  - discriminate.
  - reflexivity.
  - exists req. split; [exact Hcalls | exact Hm].
Defined.

(** X9 at work: the first data call connects by itself. *)
Lemma auto_connect_is_transparent_witness :
  @call_tool demo "list_models" [] (fresh_world demo two_partners)
  = @call_tool demo "list_models" []
               (fst (@initialize_odoo demo (fresh_world demo two_partners))).
Proof.
  apply (@auto_connect_is_transparent demo "list_models" [] (fresh_world demo two_partners)
           (fst (@initialize_odoo demo (fresh_world demo two_partners))) true).
  - discriminate.
  - reflexivity.
  - reflexivity.
  - reflexivity.
Defined.

(** X10 at work: reconnecting while the server is away. *)
Lemma failed_connect_odoo_witness :
  session_missing (live_world offline empty_store) = false /\
  exists w',
    @call_tool offline "connect_odoo" [] (live_world offline empty_store)
    = (w', inr [text_content "❌ Error al conectar con Odoo. Verifica las credenciales."]) /\
    session_missing w' = true.
Proof.
  split; [reflexivity | ].
  destruct (@failed_connect_odoo_discards_session offline [] (live_world offline empty_store)
              demo_client eq_refl) as (w' & Hrun & Hs & _).
  - left. eexists. reflexivity.
  - exists w'. split; assumption.
Defined.

(** X11 at work: the server has no [version] method. *)
Lemma version_failure_witness :
  exists w',
    @call_tool no_version "connect_odoo" [] (fresh_world no_version empty_store)
    = (w', inr [text_content "✅ Conectado exitosamente a Odoo"]) /\
    logs w' = [(INFO, "✅ Conectado a Odoo Unknown")].
Proof.
  destruct (@version_failure_does_not_fail_connect no_version []
              (fresh_world no_version empty_store) demo_client empty_store empty_store
              (PInt 2) (ProtocolError 404 "Not Found") eq_refl eq_refl)
    as (w' & Hrun & _ & Hlogs & _).
  - discriminate.
  - reflexivity.
  - exists w'. split; [exact Hrun | exact Hlogs].
Defined.

(** X12 at work: connected, says the tool; not connected, says the guard. *)
Lemma connect_odoo_success_without_session_witness :
  exists w',
    @call_tool zero_uid "connect_odoo" [] (fresh_world zero_uid empty_store)
    = (w', inr [text_content "✅ Conectado exitosamente a Odoo"]) /\
    session_missing w' = true.
Proof.
  apply (@connect_odoo_success_without_session zero_uid [] (fresh_world zero_uid empty_store)
           demo_client empty_store empty_store (PInt 0) [("server_serie", PStr "18.0")]).
  - reflexivity.
  - reflexivity.
  - discriminate.
  - reflexivity.
  - reflexivity.
Defined.

(** X13 at work: one more attempt for every call. *)
Lemma each_disconnected_call_retries_witness :
  exists w',
    @call_tool offline "search_records" [] (fresh_world offline empty_store)
    = (w', inr [text_content not_connected_text]) /\
    length (calls (net w')) = 1 /\
    stdout (net w') = ["Error conectando: [Errno 111] Connection refused"].
Proof.
  destruct (@each_disconnected_call_retries offline "search_records" []
              (fresh_world offline empty_store) demo_client
              (OSError "[Errno 111] Connection refused"))
    as (w' & Hrun & _ & Hcalls & Hout & _).
  - discriminate.
  - reflexivity.
  - reflexivity.
  - reflexivity.
  - exists w'. split; [exact Hrun | ].
    split; [rewrite Hcalls; reflexivity | exact Hout].
Defined.

(** X14 at work: two partners found. *)
Lemma search_records_answer_witness :
  exists text,
    snd (@call_tool demo "search_records" [("model", PStr "res.partner")]
                    (live_world demo two_partners))
    = inr [text_content (("🔍 Encontrados 2 registros en res.partner:" ++ nl) ++ text)].
Proof.
  pose proof (@search_records_answer demo (live_world demo two_partners) demo_session
                [("model", PStr "res.partner")] (PStr "res.partner") _ _
                eq_refl eq_refl eq_refl eq_refl) as Hanswer.
  eexists. rewrite Hanswer. reflexivity.
Defined.

(** X15 at work: no partner has the identifier 7. *)
Lemma read_record_answer_witness :
  snd (@call_tool demo "read_record" [("model", PStr "res.partner"); ("record_id", PInt 7)]
                  (live_world demo two_partners))
  = inr [text_content "No se encontró el registro con ID 7"].
Proof.
  pose proof (@read_record_answer demo (live_world demo two_partners) demo_session
                [("model", PStr "res.partner"); ("record_id", PInt 7)]
                (PStr "res.partner") (PInt 7) _ _
                eq_refl eq_refl eq_refl eq_refl eq_refl) as Hanswer.
  rewrite Hanswer. reflexivity.
Defined.

(** X16 at work: the server answers [False] to the update. *)
Lemma update_answer_witness :
  snd (@call_tool refusing "update_record"
                  [("model", PStr "res.partner"); ("record_id", PInt 7);
                   ("values", PDict [("name", PStr "Eve")])]
                  (live_world refusing two_partners))
  = inr [text_content "❌ Error al actualizar el registro res.partner/7"].
Proof.
  destruct (@update_and_delete_answer_by_truthiness refusing
              (live_world refusing two_partners) demo_session
              [("model", PStr "res.partner"); ("record_id", PInt 7);
               ("values", PDict [("name", PStr "Eve")])]
              (PStr "res.partner") (PInt 7) eq_refl eq_refl eq_refl eq_refl) as [Hupdate _].
  rewrite (Hupdate (PDict [("name", PStr "Eve")]) _ _ eq_refl eq_refl). reflexivity.
Defined.

(** X17 at work: the server answers [False] to the creation. *)
Lemma create_record_witness :
  exists text,
    snd (@call_tool refusing "create_record"
                    [("model", PStr "res.partner"); ("values", PDict [])]
                    (live_world refusing empty_store))
    = inr [text_content ("✅ Registro creado exitosamente!" ++ text)].
Proof.
  pose proof (@create_record_reports_any_answer refusing (live_world refusing empty_store)
                demo_session [("model", PStr "res.partner"); ("values", PDict [])]
                (PStr "res.partner") (PDict []) _ _
                eq_refl eq_refl eq_refl eq_refl eq_refl) as Hanswer.
  eexists. rewrite Hanswer. reflexivity.
Defined.

(** X18 at work: two models listed, twenty announced. *)
Lemma list_models_tool_answer_witness :
  snd (@call_tool two_models "list_models" [] (live_world two_models empty_store))
  = inr [text_content
           (@listing two_models ("📋 Modelos disponibles:" ++ nl)
                     [(PStr "res.partner", PStr "Contact"); (PStr "res.users", PStr "User")]
              ++ nl ++ "(Mostrando 20 de 2 modelos)")].
Proof.
  rewrite (@list_models_tool_answer two_models (live_world two_models empty_store)
             demo_session [] empty_store _
             [(PStr "res.partner", PStr "Contact"); (PStr "res.users", PStr "User")]
             eq_refl eq_refl eq_refl ltac:(repeat constructor)).
  reflexivity.
Defined.

(** X19 at work: the sixteenth entry is not a field description, and it
    does not matter. *)
Lemma get_model_fields_witness :
  exists answer,
    snd (@call_tool sixteen_fields "get_model_fields" [("model", PStr "res.partner")]
                    (live_world sixteen_fields empty_store))
    = inr [text_content answer].
Proof.
  destruct (@get_model_fields_reads_first_15 sixteen_fields [("model", PStr "res.partner")]
              (PStr "res.partner") fifteen_fields eq_refl eq_refl) as [answer Hanswer].
  exists answer.
  eapply (Hanswer (live_world sixteen_fields empty_store) demo_session _ broken_entry);
    reflexivity.
Defined.

(** X20 at work: three calls from a cold start against a dead server. *)
Lemma only_configured_endpoints_witness :
  exists w' answers extra,
    @call_tools offline [("list_models", []); ("connect_odoo", []); ("nope", [])]
                (fresh_world offline empty_store) = (w', inr answers) /\
    length answers = 3 /\
    @configured_world offline w' /\
    calls (net w') = extra /\
    Forall (@configured_endpoint offline) extra.
Proof.
  destruct (@only_configured_endpoints offline
              [("list_models", []); ("connect_odoo", []); ("nope", [])]
              (fresh_world offline empty_store))
    as (w' & answers & extra & Hrun & Hlen & Hw & Hcalls & Hall).
  - intros c Hc. discriminate Hc.
  - exists w', answers, extra. repeat split; assumption.
Defined.

(** X21 at work: two data calls on one session. *)
Lemma session_is_reused_witness :
  exists w' answers extra,
    @call_tools demo [("search_records", [("model", PStr "res.partner")]);
                      ("read_record", [])]
                (live_world demo two_partners) = (w', inr answers) /\
    odoo_client w' = Some demo_session /\
    calls (net w') = extra /\
    length extra <= 2.
Proof.
  destruct (@session_is_reused demo
              [("search_records", [("model", PStr "res.partner")]); ("read_record", [])]
              (live_world demo two_partners))
    as (w' & answers & extra & Hrun & Hc & Hcalls & Hlen & _).
  - reflexivity.
  - repeat constructor; discriminate.
  - exists w', answers, extra. repeat split; assumption.
Defined.

(** X22 at work: with the scheme missing from the URL, [main] stops
    before the MCP server starts; with nobody listening, it starts. *)
Lemma main_startup_witness :
  (forall run_server,
      snd (@main schemeless run_server (fresh_world schemeless empty_store))
      = inl (OSError "unsupported XML-RPC protocol")) /\
  (forall run_server, exists w1,
      @main offline run_server (fresh_world offline empty_store) = run_server w1 /\
      session_missing w1 = true).
Proof.
  split; intros run_server.
  - destruct (@main_startup schemeless run_server (fresh_world schemeless empty_store))
      as (Hfatal & _).
    rewrite (Hfatal (OSError "unsupported XML-RPC protocol") eq_refl). reflexivity.
  - destruct (@main_startup offline run_server (fresh_world offline empty_store))
      as (_ & _ & Hserve).
    destruct (Hserve demo_client eq_refl) as (w1 & Hrun & Hs & _).
    + left. eexists. reflexivity.
    + exists w1. split; assumption.
Defined.
